(** * Invoice records, their attachment and the access rules of the billing backend

    A shallow embedding of [src/models/Invoice.js]: the Sequelize model
    [Invoice] (lines 4-77: columns, setters, defaults, unique index) and the
    Express router that serves it (lines 79-381).

    Conventions of the embedding.
    - A JavaScript string is a [string]; the model covers ASCII text:
      [toUpperCase]/[toLowerCase] map the 26 letters and [trim] strips the
      ASCII white space and line terminators (TAB, LF, VT, FF, CR, SP).
    - A [Buffer] is a [list byte]; a nullable column is an [option].
    - The table is a list of rows in insertion order.  Column equality in a
      [where] clause is exact string equality.
    - The values a call draws from its surroundings ([UUIDV4], [new Date()],
      the clock of the store) are passed in explicitly as an [Env].
    - What a route answers is a [Response]: the status code and the payload
      handed to [res.json] or [res.send]. *)

From Stdlib Require Import String Ascii List ZArith Bool Arith Lia.
From Stdlib Require Strings.Byte.
From Stdlib Require Import Sorted Permutation.
Import ListNotations.
Open Scope string_scope.
Open Scope list_scope.

Set Implicit Arguments.

(** ** JavaScript strings *)

Module JsString.

Definition isUpper (c : ascii) : bool :=
  let n := nat_of_ascii c in (65 <=? n)%nat && (n <=? 90)%nat.

Definition isLower (c : ascii) : bool :=
  let n := nat_of_ascii c in (97 <=? n)%nat && (n <=? 122)%nat.

(** White space and line terminators removed by [String.prototype.trim]. *)
Definition isWhiteSpace (c : ascii) : bool :=
  let n := nat_of_ascii c in ((9 <=? n)%nat && (n <=? 13)%nat) || (n =? 32)%nat.

Definition upperChar (c : ascii) : ascii :=
  if isLower c then ascii_of_nat (nat_of_ascii c - 32) else c.

Definition lowerChar (c : ascii) : ascii :=
  if isUpper c then ascii_of_nat (nat_of_ascii c + 32) else c.

Fixpoint mapChars (f : ascii -> ascii) (s : string) : string :=
  match s with
  | EmptyString => EmptyString
  | String c s' => String (f c) (mapChars f s')
  end.

Definition toUpperCase : string -> string := mapChars upperChar.
Definition toLowerCase : string -> string := mapChars lowerChar.

Fixpoint trimStart (s : string) : string :=
  match s with
  | EmptyString => EmptyString
  | String c s' => if isWhiteSpace c then trimStart s' else s
  end.

Fixpoint trimEnd (s : string) : string :=
  match s with
  | EmptyString => EmptyString
  | String c s' =>
      match trimEnd s' with
      | EmptyString => if isWhiteSpace c then EmptyString else String c EmptyString
      | t => String c t
      end
  end.

Definition trim (s : string) : string := trimEnd (trimStart s).

(** [a || b] on strings: the empty string is falsy. *)
Definition orString (a : option string) (b : string) : string :=
  match a with
  | Some EmptyString | None => b
  | Some s => s
  end.

End JsString.

Import JsString.

(** ** The data model (src/models/Invoice.js, lines 4-77) *)

Definition bytes := list Byte.byte.

Inductive PaymentStatus : Type := Paid | Unpaid.

(** One invoice with all its attributes.  [Blob] is what the [pdfData]
    attribute holds: a nullable column in a stored row, and in a JSON object a
    key that may also be missing. *)
Record InvoiceOf (Blob : Type) : Type := mkInvoice {
  id : string;
  invoiceNumber : string;
  customerEmail : string;
  invoiceDate : Z;
  dueDate : Z;
  paymentStatus : PaymentStatus;
  pdfUrl : option string;
  pdfData : Blob;
  pdfFileName : option string;
  pdfMimeType : option string;
  pdfSize : option Z;
  invoiceAmount : string;
  createdAt : Z;
  updatedAt : Z
}.

(** A row of table [invoices]. *)
Definition Invoice : Type := InvoiceOf (option bytes).

Definition Store : Type := list Invoice.

(** The [pdfData] key of an invoice on the wire. *)
Inductive JsonBlob : Type :=
| KeyAbsent
| JsonNull
| JsonBuffer (data : bytes).

Definition InvoiceJSON : Type := InvoiceOf JsonBlob.

Definition withPdfData (A B : Type) (r : InvoiceOf A) (b : B) : InvoiceOf B :=
  {| id := id r; invoiceNumber := invoiceNumber r; customerEmail := customerEmail r;
     invoiceDate := invoiceDate r; dueDate := dueDate r; paymentStatus := paymentStatus r;
     pdfUrl := pdfUrl r; pdfData := b; pdfFileName := pdfFileName r;
     pdfMimeType := pdfMimeType r; pdfSize := pdfSize r; invoiceAmount := invoiceAmount r;
     createdAt := createdAt r; updatedAt := updatedAt r |}.

(** [invoice.toJSON()] of an instance loaded with every attribute. *)
Definition toJSON (r : Invoice) : InvoiceJSON :=
  withPdfData r (match pdfData r with Some d => JsonBuffer d | None => JsonNull end).

(** [invoice.toJSON()] of the instance [Invoice.create] returns: it holds the
    keys that were given or defaulted, so [pdfData] is among them only when a
    file came with the request. *)
Definition createdJSON (r : Invoice) : InvoiceJSON :=
  withPdfData r (match pdfData r with Some d => JsonBuffer d | None => KeyAbsent end).

(** [delete responseInvoice.pdfData]. *)
Definition deletePdfData (j : InvoiceJSON) : InvoiceJSON := withPdfData j KeyAbsent.

(** An instance loaded with [attributes: { exclude: ['pdfData'] }], as
    [res.json] serialises it. *)
Definition excludePdfData (r : Invoice) : InvoiceJSON := withPdfData r KeyAbsent.

(** The attribute bag handed to [Invoice.create] and [Invoice.update]: one
    optional slot per column a caller can name ([updatedAt] is always
    overwritten by the store). *)
Record Values : Type := mkValues {
  v_id : option string;
  v_invoiceNumber : option string;
  v_customerEmail : option string;
  v_invoiceDate : option Z;
  v_dueDate : option Z;
  v_paymentStatus : option PaymentStatus;
  v_pdfUrl : option string;
  v_pdfData : option bytes;
  v_pdfFileName : option string;
  v_pdfMimeType : option string;
  v_pdfSize : option Z;
  v_invoiceAmount : option string;
  v_createdAt : option Z
}.

(** What a failing call throws. *)
Inductive Thrown : Type :=
| TypeError          (* a setter called on [undefined] *)
| ValidationError    (* notNull violation, isEmail *)
| DuplicateKey.      (* unique constraint: primary key or invoiceNumber *)

(** Ambient values read during one call. *)
Record Env : Type := mkEnv {
  env_uuid : string;    (* DataTypes.UUIDV4 *)
  env_newDate : Z;      (* new Date() in the handler *)
  env_now : Z           (* the clock behind createdAt / updatedAt / DataTypes.NOW *)
}.

(** ** Requests and responses *)

(** [req.user], attached by [authenticateToken]. *)
Record Principal : Type := mkPrincipal {
  role : string;
  email : string
}.

(** [req.file], left by [upload.single('attachment')]. *)
Record Upload : Type := mkUpload {
  buffer : bytes;
  originalname : string;
  mimetype : string;
  size : Z
}.

Record Request : Type := mkRequest {
  user : Principal;
  params_id : string;                 (* req.params.id *)
  params_invoiceNumber : string;      (* req.params.invoiceNumber *)
  query_email : option string;        (* req.query.email *)
  body : Values;                      (* req.body, after the validation chain *)
  file : option Upload;               (* req.file *)
  errors_isEmpty : bool               (* validationResult(req).isEmpty() *)
}.

Inductive Payload : Type :=
| Message (message : string)                                   (* { message } *)
| Errors                                                       (* { errors: errors.array() } *)
| WithInvoice (message : option string) (invoice : InvoiceJSON) (* { message?, invoice } *)
| WithInvoices (invoices : list InvoiceJSON)                   (* { invoices } *)
| Pdf (contentType contentDisposition : string) (contentLength : Z) (data : bytes).

Record Response : Type := mkResponse {
  status : nat;
  payload : Payload
}.

Definition Handler : Type := Env -> Request -> Store -> Response * Store.

(** ** The store: what Sequelize does with the model *)

(** The setter of [invoiceNumber]: [value.trim().toUpperCase()]. *)
Definition set_invoiceNumber (value : string) : string := toUpperCase (trim value).

(** The setter of [customerEmail]: [value.toLowerCase().trim()]. *)
Definition set_customerEmail (value : string) : string := trim (toLowerCase value).

Definition hasId (pk : string) (r : Invoice) : bool := String.eqb (id r) pk.

(** [Invoice.findByPk(id)]. *)
Definition findByPk (pk : string) (db : Store) : option Invoice := find (hasId pk) db.

(** [Invoice.findOne({ where: { invoiceNumber } })]. *)
Definition findOne_invoiceNumber (number : string) (db : Store) : option Invoice :=
  find (fun r => String.eqb (invoiceNumber r) number) db.

(** [order: [['createdAt', 'DESC']]]; rows of equal age keep their order. *)
Fixpoint insertNewestFirst (r : Invoice) (l : list Invoice) : list Invoice :=
  match l with
  | [] => [r]
  | x :: l' => if (createdAt x <=? createdAt r)%Z then r :: l else x :: insertNewestFirst r l'
  end.

Definition newestFirst (l : list Invoice) : list Invoice :=
  fold_right insertNewestFirst [] l.

(** [Invoice.findAll({ order })] and [Invoice.findAll({ where: { customerEmail }, order })]. *)
Definition findAll (db : Store) : list Invoice := newestFirst db.

Definition findAll_customerEmail (e : string) (db : Store) : list Invoice :=
  newestFirst (filter (fun r => String.eqb (customerEmail r) e) db).

(** [Invoice.destroy({ where: { id } })]: the number of rows removed. *)
Definition Invoice_destroy (pk : string) (db : Store) : nat * Store :=
  (length (filter (hasId pk) db), filter (fun r => negb (hasId pk r)) db).

Definition orElse (A : Type) (a : option A) (b : A) : A :=
  match a with Some x => x | None => b end.

(** The row an update leaves: every named column takes the new value, through
    its setter where it has one; [updatedAt] is refreshed. *)
Definition applyValues (env : Env) (v : Values) (r : Invoice) : Invoice :=
  {| id := orElse (v_id v) (id r);
     invoiceNumber := orElse (option_map set_invoiceNumber (v_invoiceNumber v)) (invoiceNumber r);
     customerEmail := orElse (option_map set_customerEmail (v_customerEmail v)) (customerEmail r);
     invoiceDate := orElse (v_invoiceDate v) (invoiceDate r);
     dueDate := orElse (v_dueDate v) (dueDate r);
     paymentStatus := orElse (v_paymentStatus v) (paymentStatus r);
     pdfUrl := match v_pdfUrl v with Some u => Some u | None => pdfUrl r end;
     pdfData := match v_pdfData v with Some d => Some d | None => pdfData r end;
     pdfFileName := match v_pdfFileName v with Some n => Some n | None => pdfFileName r end;
     pdfMimeType := match v_pdfMimeType v with Some m => Some m | None => pdfMimeType r end;
     pdfSize := match v_pdfSize v with Some n => Some n | None => pdfSize r end;
     invoiceAmount := orElse (v_invoiceAmount v) (invoiceAmount r);
     createdAt := orElse (v_createdAt v) (createdAt r);
     updatedAt := env_now env |}.

(** [Invoice.build(values)] for a new record: setters on the two normalised
    columns, default values where nothing was given, and the timestamps. *)
Definition build (env : Env) (v : Values) (number e : string) (due : Z) : Invoice :=
  {| id := orElse (v_id v) (env_uuid env);
     invoiceNumber := set_invoiceNumber number;
     customerEmail := set_customerEmail e;
     invoiceDate := orElse (v_invoiceDate v) (env_now env);
     dueDate := due;
     paymentStatus := orElse (v_paymentStatus v) Unpaid;
     pdfUrl := v_pdfUrl v;
     pdfData := v_pdfData v;
     pdfFileName := v_pdfFileName v;
     pdfMimeType := Some (orElse (v_pdfMimeType v) "application/pdf");
     pdfSize := v_pdfSize v;
     invoiceAmount := orElse (v_invoiceAmount v) "0.00";
     createdAt := orElse (v_createdAt v) (env_now env);
     updatedAt := env_now env |}.

Definition isNone (A : Type) (o : option A) : bool :=
  match o with
  | None => true
  | Some _ => false
  end.

(** The attribute bag names no column at all. *)
Definition namesNoColumn (v : Values) : bool :=
  isNone (v_id v) && isNone (v_invoiceNumber v) && isNone (v_customerEmail v)
  && isNone (v_invoiceDate v) && isNone (v_dueDate v) && isNone (v_paymentStatus v)
  && isNone (v_pdfUrl v) && isNone (v_pdfData v) && isNone (v_pdfFileName v)
  && isNone (v_pdfMimeType v) && isNone (v_pdfSize v) && isNone (v_invoiceAmount v)
  && isNone (v_createdAt v).

Section Backend.

(** validator.js's [isEmail], behind [validate: { isEmail: true }]. *)
Variable isEmail : string -> bool.

(** [Invoice.create(values)] as the create route calls it: every key of
    [invoiceNumber], [customerEmail], [invoiceDate], [dueDate],
    [paymentStatus], [invoiceAmount] is present, [None] standing for
    [undefined].  Build (setters, defaults), validate, insert. *)
Definition Invoice_create (env : Env) (v : Values) (db : Store)
  : (Thrown + Invoice) * Store :=
  match v_invoiceNumber v, v_customerEmail v with
  | Some number, Some e =>
      match v_dueDate v with
      | Some due =>
          let r := build env v number e due in
          if negb (isEmail (customerEmail r)) then (inl ValidationError, db)
          else if existsb (fun o => String.eqb (id o) (id r)
                                    || String.eqb (invoiceNumber o) (invoiceNumber r)) db
          then (inl DuplicateKey, db)
          else (inr r, db ++ [r])
      | None => (inl ValidationError, db)
      end
  | _, _ => (inl TypeError, db)
  end.

(** [Invoice.update(values, { where: { id } })]: the named columns are
    validated on a scratch instance (so the setters run), then the rows
    with that id are rewritten; the count of rewritten rows is returned.
    When no column is named there would be nothing but [updatedAt] to write:
    Sequelize then skips the query and returns 0. *)
Definition Invoice_update (env : Env) (v : Values) (pk : string) (db : Store)
  : (Thrown + nat) * Store :=
  if negb (match v_customerEmail v with
           | Some e => isEmail (set_customerEmail e)
           | None => true
           end)
  then (inl ValidationError, db)
  else if namesNoColumn v then (inr 0, db)
  else
    let matched := filter (hasId pk) db in
    let others := filter (fun r => negb (hasId pk r)) db in
    match matched with
    | [] => (inr 0, db)
    | _ :: rest =>
        let clashId :=
          match v_id v with
          | Some i => existsb (fun o => String.eqb (id o) i) others
                      || negb (Nat.eqb (length rest) 0)
          | None => false
          end in
        let clashNumber :=
          match v_invoiceNumber v with
          | Some n => existsb (fun o => String.eqb (invoiceNumber o) (set_invoiceNumber n)) others
                      || negb (Nat.eqb (length rest) 0)
          | None => false
          end in
        if clashId || clashNumber then (inl DuplicateKey, db)
        else (inr (length matched),
              map (fun r => if hasId pk r then applyValues env v r else r) db)
    end.

(** ** The router (src/models/Invoice.js, lines 79-381) *)

(** A middleware either answers or calls [next()]. *)
Definition Middleware : Type := Request -> option Response.

Definition guarded (m : Middleware) (h : Handler) : Handler :=
  fun env req db =>
    match m req with
    | Some res => (res, db)
    | None => h env req db
    end.

(** Modelled from the spec: the [requireAdmin] middleware of
    middleware/auth.js, which is not among the sources.  The spec gates
    create, update, delete and full list to admin principals at the
    operation level, ahead of the handler; a principal whose role is not
    ['admin'] is turned away with AccessDenied (403).  The wording of the
    message is not fixed by the spec. *)
Definition requireAdmin : Middleware :=
  fun req =>
    if String.eqb (role (user req)) "admin" then None
    else Some (mkResponse 403 (Message "Admin access required")).

(** The condition under which the three single-invoice reads answer 403:
    [req.user.role !== 'admin' && req.user.email !== invoice.customerEmail]
    (lines 247, 281 and 353). *)
Definition accessDenied (u : Principal) (invoice : Invoice) : bool :=
  negb (String.eqb (role u) "admin")
  && negb (String.eqb (email u) (customerEmail invoice)).

(** The four assignments made when [req.file] is there (lines 136-139 and
    191-194). *)
Definition attach (f : Upload) (v : Values) : Values :=
  {| v_id := v_id v; v_invoiceNumber := v_invoiceNumber v;
     v_customerEmail := v_customerEmail v; v_invoiceDate := v_invoiceDate v;
     v_dueDate := v_dueDate v; v_paymentStatus := v_paymentStatus v;
     v_pdfUrl := v_pdfUrl v;
     v_pdfData := Some (buffer f);
     v_pdfFileName := Some (originalname f);
     v_pdfMimeType := Some (mimetype f);
     v_pdfSize := Some (size f);
     v_invoiceAmount := v_invoiceAmount v; v_createdAt := v_createdAt v |}.

(** The six named fields [invoiceData] starts from (lines 111-127). *)
Definition invoiceFields (env : Env) (b : Values) : Values :=
  {| v_id := None;
     v_invoiceNumber := v_invoiceNumber b;
     v_customerEmail := v_customerEmail b;
     v_invoiceDate := Some (orElse (v_invoiceDate b) (env_newDate env));
     v_dueDate := v_dueDate b;
     v_paymentStatus := Some (orElse (v_paymentStatus b) Unpaid);
     v_pdfUrl := None; v_pdfData := None; v_pdfFileName := None;
     v_pdfMimeType := None; v_pdfSize := None;
     v_invoiceAmount := v_invoiceAmount b;
     v_createdAt := None |}.

(** [invoiceData] of the create handler (lines 111-144): the six named
    fields of the body, then the file. *)
Definition invoiceData (env : Env) (req : Request) : Values :=
  let data := invoiceFields env (body req) in
  match file req with
  | Some f => attach f data
  | None => data
  end.

(** POST / (lines 104-157). *)
Definition createInvoice : Handler :=
  fun env req db =>
    if negb (errors_isEmpty req) then (mkResponse 400 Errors, db)
    else
      match Invoice_create env (invoiceData env req) db with
      | (inr invoice, db') =>
          let responseInvoice := deletePdfData (createdJSON invoice) in
          (mkResponse 201 (WithInvoice (Some "Invoice created") (createdJSON invoice)), db')
      | (inl _, db') => (mkResponse 500 (Message "Server error"), db')
      end.

(** [updates] of the update handler (lines 182-199): the whole body, then
    the file. *)
Definition updates (req : Request) : Values :=
  match file req with
  | Some f => attach f (body req)
  | None => body req
  end.

(** PUT /:id (lines 174-217). *)
Definition updateInvoice : Handler :=
  fun env req db =>
    if negb (errors_isEmpty req) then (mkResponse 400 Errors, db)
    else
      match Invoice_update env (updates req) (params_id req) db with
      | (inr O, db') => (mkResponse 404 (Message "Invoice not found"), db')
      | (inr (S _), db') =>
          match findByPk (params_id req) db' with
          | Some invoice =>
              let responseInvoice := deletePdfData (toJSON invoice) in
              (mkResponse 200 (WithInvoice (Some "Invoice updated") responseInvoice), db')
          | None => (mkResponse 500 (Message "Server error"), db')
          end
      | (inl _, db') => (mkResponse 500 (Message "Server error"), db')
      end.

(** GET / (lines 221-232). *)
Definition listAll : Handler :=
  fun env req db =>
    (mkResponse 200 (WithInvoices (map excludePdfData (findAll db))), db).

Definition dquote : string := String (ascii_of_nat 34) EmptyString.

(** [a || b] on numbers: zero is falsy. *)
Definition orNumber (a : option Z) (b : Z) : Z :=
  match a with
  | Some n => if (n =? 0)%Z then b else n
  | None => b
  end.

(** A header value Node accepts in [res.setHeader]: TAB, the printable ASCII
    characters and the bytes from 128 on; any other character makes
    [setHeader] throw. *)
Definition validHeaderChar (c : ascii) : bool :=
  let n := nat_of_ascii c in
  (n =? 9)%nat || ((32 <=? n)%nat && (n <=? 126)%nat) || (128 <=? n)%nat.

Fixpoint validHeaderValue (s : string) : bool :=
  match s with
  | EmptyString => true
  | String c s' => validHeaderChar c && validHeaderValue s'
  end.

(** [res.send(buffer)] after the three [res.setHeader]: status 200, the
    content type and the disposition as they were set; Express sets
    Content-Length to the length of the buffer, over the value [setHeader]
    had put there.  (Requests carry no headers here, so no conditional
    request is answered 304.) *)
Definition send (contentType contentDisposition : string) (contentLength : Z)
    (data : bytes) : Response :=
  mkResponse 200 (Pdf contentType contentDisposition (Z.of_nat (length data)) data).

(** GET /:id/pdf (lines 235-266). *)
Definition downloadPdf : Handler :=
  fun env req db =>
    match findByPk (params_id req) db with
    | None => (mkResponse 404 (Message "Invoice not found"), db)
    | Some invoice =>
        if accessDenied (user req) invoice
        then (mkResponse 403 (Message "Access denied"), db)
        else
          match pdfData invoice with
          | None => (mkResponse 404 (Message "PDF not found for this invoice"), db)
          | Some data =>
              let contentType := orString (pdfMimeType invoice) "application/pdf" in
              let contentDisposition :=
                ("attachment; filename=" ++ dquote
                 ++ orString (pdfFileName invoice)
                      ("invoice-" ++ invoiceNumber invoice ++ ".pdf")
                 ++ dquote)%string in
              let contentLength := orNumber (pdfSize invoice) (Z.of_nat (length data)) in
              if validHeaderValue contentType && validHeaderValue contentDisposition
              then (send contentType contentDisposition contentLength data, db)
              else (mkResponse 500 (Message "Server error"), db)
          end
    end.

(** GET /:id/pdf/view (lines 269-300). *)
Definition viewPdf : Handler :=
  fun env req db =>
    match findByPk (params_id req) db with
    | None => (mkResponse 404 (Message "Invoice not found"), db)
    | Some invoice =>
        if accessDenied (user req) invoice
        then (mkResponse 403 (Message "Access denied"), db)
        else
          match pdfData invoice with
          | None => (mkResponse 404 (Message "PDF not found for this invoice"), db)
          | Some data =>
              let contentType := orString (pdfMimeType invoice) "application/pdf" in
              let contentDisposition :=
                ("inline; filename=" ++ dquote
                 ++ orString (pdfFileName invoice)
                      ("invoice-" ++ invoiceNumber invoice ++ ".pdf")
                 ++ dquote)%string in
              let contentLength := orNumber (pdfSize invoice) (Z.of_nat (length data)) in
              if validHeaderValue contentType && validHeaderValue contentDisposition
              then (send contentType contentDisposition contentLength data, db)
              else (mkResponse 500 (Message "Server error"), db)
          end
    end.

(** GET /search/:invoiceNumber (lines 302-323). *)
Definition searchByNumber : Handler :=
  fun env req db =>
    match findOne_invoiceNumber (params_invoiceNumber req) db with
    | None => (mkResponse 404 (Message "Invoice not found"), db)
    | Some invoice => (mkResponse 200 (WithInvoice None (excludePdfData invoice)), db)
    end.

(** GET /customer (lines 325-338); a [where] on [undefined] throws. *)
Definition listByCustomer : Handler :=
  fun env req db =>
    match query_email req with
    | Some e =>
        (mkResponse 200 (WithInvoices (map excludePdfData (findAll_customerEmail e db))), db)
    | None => (mkResponse 500 (Message "Server error"), db)
    end.

(** GET /:id (lines 341-362). *)
Definition getInvoiceDetail : Handler :=
  fun env req db =>
    match findByPk (params_id req) db with
    | None => (mkResponse 404 (Message "Invoice not found"), db)
    | Some invoice =>
        if accessDenied (user req) invoice
        then (mkResponse 403 (Message "Access denied"), db)
        else (mkResponse 200 (WithInvoice None (excludePdfData invoice)), db)
    end.

(** DELETE /:id (lines 365-379). *)
Definition deleteInvoice : Handler :=
  fun env req db =>
    match Invoice_destroy (params_id req) db with
    | (O, db') => (mkResponse 404 (Message "Invoice not found"), db')
    | (S _, db') => (mkResponse 200 (Message "Invoice deleted successfully"), db')
    end.

(** The operations of the router with the middleware each is mounted
    behind; [authenticateToken] has run and left [req.user]. *)
Inductive Operation : Type :=
| Create | Update | ListAll | Download | View | Search | ListByCustomer | Detail | Delete.

Definition route (op : Operation) : Handler :=
  match op with
  | Create => guarded requireAdmin createInvoice
  | Update => guarded requireAdmin updateInvoice
  | ListAll => guarded requireAdmin listAll
  | Download => downloadPdf
  | View => viewPdf
  | Search => searchByNumber
  | ListByCustomer => listByCustomer
  | Detail => getInvoiceDetail
  | Delete => guarded requireAdmin deleteInvoice
  end.

(** ** Vocabulary of the properties *)

(** The operations the router mounts behind [requireAdmin]. *)
Definition adminOnly (op : Operation) : bool :=
  match op with
  | Create | Update | ListAll | Delete => true
  | _ => false
  end.

(** The single-invoice reads: detail and the two attachment fetches. *)
Definition singleRead (op : Operation) : bool :=
  match op with
  | Detail | Download | View => true
  | _ => false
  end.

(** A request whose update body names none of the four attachment columns. *)
Definition namesNoAttachment (v : Values) : Prop :=
  v_pdfData v = None /\ v_pdfFileName v = None
  /\ v_pdfMimeType v = None /\ v_pdfSize v = None.

(** The upload a request brings, if any. *)
Definition uploadsOf (req : Request) : list Upload :=
  match file req with
  | Some f => [f]
  | None => []
  end.

(** Stores reached from the empty table by calls to the router in which no
    update body names an attachment column, with the uploads those calls
    brought. *)
Inductive reachablePlain : list Upload -> Store -> Prop :=
| reach_empty : reachablePlain [] []
| reach_step : forall ups db op env req,
    reachablePlain ups db ->
    (op = Update -> namesNoAttachment (body req)) ->
    reachablePlain (uploadsOf req ++ ups) (snd (route op env req db)).

(** Stores reached from the empty table by any calls to the router. *)
Inductive reachable : Store -> Prop :=
| reachable_empty : reachable []
| reachable_step : forall db op env req,
    reachable db -> reachable (snd (route op env req db)).

End Backend.

Definition withUser (req : Request) (u : Principal) : Request :=
  {| user := u; params_id := params_id req;
     params_invoiceNumber := params_invoiceNumber req; query_email := query_email req;
     body := body req; file := file req; errors_isEmpty := errors_isEmpty req |}.

(** The attachment of a row: its four sub-fields. *)
Definition attachmentOf (r : Invoice)
  : option bytes * option string * option string * option Z :=
  (pdfData r, pdfFileName r, pdfMimeType r, pdfSize r).

Definition attachmentOfUpload (f : Upload)
  : option bytes * option string * option string * option Z :=
  (Some (buffer f), Some (originalname f), Some (mimetype f), Some (size f)).

(** The shape every row has when attachments only come from uploads: the
    four sub-fields are those of one of the uploads [ups], all together; or
    there are no bytes, no name and no size, and the mime type is the default
    of the column. *)
Definition attachmentShape (ups : list Upload) (r : Invoice) : Prop :=
  attachmentOf r = (None, None, Some "application/pdf", None)
  \/ exists f, In f ups /\ attachmentOf r = attachmentOfUpload f.

(** A response that carries no [pdfData] key. *)
Definition omitsPdfData (res : Response) : Prop :=
  match payload res with
  | WithInvoice _ j => pdfData j = KeyAbsent
  | WithInvoices js => Forall (fun j : InvoiceJSON => pdfData j = KeyAbsent) js
  | Pdf _ _ _ _ => False
  | Message _ | Errors => True
  end.


(** The first and the last character of a string, and a test on all of them. *)
Definition firstChar (s : string) : option ascii :=
  match s with
  | EmptyString => None
  | String c _ => Some c
  end.

Fixpoint lastChar (s : string) : option ascii :=
  match s with
  | EmptyString => None
  | String c s' =>
      match lastChar s' with
      | Some d => Some d
      | None => Some c
      end
  end.

Fixpoint allChars (p : ascii -> bool) (s : string) : bool :=
  match s with
  | EmptyString => true
  | String c s' => p c && allChars p s'
  end.

(** No white space at either end. *)
Definition cleanEnds (s : string) : Prop :=
  (forall c, firstChar s = Some c -> isWhiteSpace c = false)
  /\ (forall c, lastChar s = Some c -> isWhiteSpace c = false).

(** The order of [createdAt DESC]: [a] may come before [b]. *)
Definition notOlder (a b : Invoice) : Prop := (createdAt b <= createdAt a)%Z.

(** The same request with another body. *)
Definition withBody (req : Request) (b : Values) : Request :=
  {| user := user req; params_id := params_id req;
     params_invoiceNumber := params_invoiceNumber req; query_email := query_email req;
     body := b; file := file req; errors_isEmpty := errors_isEmpty req |}.

(** ** Sample data for the examples *)

Fixpoint countChar (c : ascii) (s : string) : nat :=
  match s with
  | EmptyString => 0
  | String x s' => (if Ascii.eqb x c then 1 else 0) + countChar c s'
  end.

Fixpoint noWhiteSpace (s : string) : bool :=
  match s with
  | EmptyString => true
  | String x s' => negb (isWhiteSpace x) && noWhiteSpace s'
  end.

(** A plain stand-in for validator.js's [isEmail], enough to run examples:
    one [@], no white space, something on both sides of the [@]. *)
Definition sampleIsEmail (s : string) : bool :=
  Nat.eqb (countChar "@" s) 1 && noWhiteSpace s
  && negb (String.prefix "@" s)
  && negb (String.prefix "@" (String.string_of_list_ascii (rev (String.list_ascii_of_string s)))).

Definition admin : Principal := {| role := "admin"; email := "root@billing.example" |}.
Definition customerA : Principal := {| role := "customer"; email := "a@x.com" |}.
Definition customerMixedCase : Principal := {| role := "customer"; email := "A@x.com" |}.
Definition customerUser : Principal := {| role := "customer"; email := "user@example.com" |}.

Definition noValues : Values :=
  {| v_id := None; v_invoiceNumber := None; v_customerEmail := None; v_invoiceDate := None;
     v_dueDate := None; v_paymentStatus := None; v_pdfUrl := None; v_pdfData := None;
     v_pdfFileName := None; v_pdfMimeType := None; v_pdfSize := None;
     v_invoiceAmount := None; v_createdAt := None |}.

Definition env1 : Env := {| env_uuid := "uuid-1"; env_newDate := 1700000000000%Z; env_now := 1700000000001%Z |}.
Definition env2 : Env := {| env_uuid := "uuid-2"; env_newDate := 1700000100000%Z; env_now := 1700000100001%Z |}.
Definition env3 : Env := {| env_uuid := "uuid-3"; env_newDate := 1700000200000%Z; env_now := 1700000200001%Z |}.

(** The body [{invoiceNumber, customerEmail, dueDate, invoiceAmount}]. *)
Definition newInvoiceBody (number e : string) : Values :=
  {| v_id := None; v_invoiceNumber := Some number; v_customerEmail := Some e;
     v_invoiceDate := None; v_dueDate := Some 1735689600000%Z; v_paymentStatus := None;
     v_pdfUrl := None; v_pdfData := None; v_pdfFileName := None; v_pdfMimeType := None;
     v_pdfSize := None; v_invoiceAmount := Some "100.00"; v_createdAt := None |}.

Definition samplePdf : Upload :=
  {| buffer := [Byte.x25; Byte.x50; Byte.x44; Byte.x46];
     originalname := "march.pdf"; mimetype := "application/pdf"; size := 4%Z |}.

Definition otherPdf : Upload :=
  {| buffer := [Byte.x25; Byte.x50; Byte.x44; Byte.x46; Byte.x2d; Byte.x31];
     originalname := "april.pdf"; mimetype := "application/x-pdf"; size := 6%Z |}.

Definition request (u : Principal) (pk : string) (b : Values) (f : option Upload) : Request :=
  {| user := u; params_id := pk; params_invoiceNumber := pk; query_email := None;
     body := b; file := f; errors_isEmpty := true |}.

(** The table after an admin created invoice [inv-001] for [a@x.com]: without
    a file, and with [samplePdf]. *)
Definition storePlain : Store :=
  snd (route sampleIsEmail Create env1
         (request admin EmptyString (newInvoiceBody "inv-001" "a@x.com") None) []).

Definition storeWithPdf : Store :=
  snd (route sampleIsEmail Create env1
         (request admin EmptyString (newInvoiceBody "inv-001" "a@x.com") (Some samplePdf)) []).

Definition invoicePlain : Invoice :=
  {| id := "uuid-1"; invoiceNumber := "INV-001"; customerEmail := "a@x.com";
     invoiceDate := 1700000000000%Z; dueDate := 1735689600000%Z; paymentStatus := Unpaid;
     pdfUrl := None; pdfData := None; pdfFileName := None;
     pdfMimeType := Some "application/pdf"; pdfSize := None;
     invoiceAmount := "100.00"; createdAt := 1700000000001%Z; updatedAt := 1700000000001%Z |}.

Definition invoiceWithPdf : Invoice :=
  {| id := "uuid-1"; invoiceNumber := "INV-001"; customerEmail := "a@x.com";
     invoiceDate := 1700000000000%Z; dueDate := 1735689600000%Z; paymentStatus := Unpaid;
     pdfUrl := None; pdfData := Some (buffer samplePdf);
     pdfFileName := Some "march.pdf"; pdfMimeType := Some "application/pdf";
     pdfSize := Some 4%Z;
     invoiceAmount := "100.00"; createdAt := 1700000000001%Z; updatedAt := 1700000000001%Z |}.

(** An update body that names one attachment column and nothing else. *)
Definition renameBody : Values :=
  {| v_id := None; v_invoiceNumber := None; v_customerEmail := None; v_invoiceDate := None;
     v_dueDate := None; v_paymentStatus := None; v_pdfUrl := None; v_pdfData := None;
     v_pdfFileName := Some "other.pdf"; v_pdfMimeType := None; v_pdfSize := None;
     v_invoiceAmount := None; v_createdAt := None |}.


(** An update body with ordinary fields only. *)
Definition paidBody : Values :=
  {| v_id := None; v_invoiceNumber := None; v_customerEmail := Some " User@Example.COM ";
     v_invoiceDate := None; v_dueDate := None; v_paymentStatus := Some Paid;
     v_pdfUrl := None; v_pdfData := None; v_pdfFileName := None; v_pdfMimeType := None;
     v_pdfSize := None; v_invoiceAmount := None; v_createdAt := None |}.

(** [storeWithPdf] after the admin replaced the attachment by [otherPdf]. *)
Definition storeReplaced : Store :=
  snd (route sampleIsEmail Update env2
         (request admin "uuid-1" noValues (Some otherPdf)) storeWithPdf).






(** [storeWithPdf] after the admin created a second invoice, [inv-002] for
    [b@x.com], without a file. *)
Definition storeTwo : Store :=
  snd (route sampleIsEmail Create env2
         (request admin EmptyString (newInvoiceBody "inv-002" "b@x.com") None) storeWithPdf).

Definition invoiceSecond : Invoice :=
  {| id := "uuid-2"; invoiceNumber := "INV-002"; customerEmail := "b@x.com";
     invoiceDate := 1700000100000%Z; dueDate := 1735689600000%Z; paymentStatus := Unpaid;
     pdfUrl := None; pdfData := None; pdfFileName := None;
     pdfMimeType := Some "application/pdf"; pdfSize := None;
     invoiceAmount := "100.00"; createdAt := 1700000100001%Z; updatedAt := 1700000100001%Z |}.

(** An update body that asks for a number no invoice has. *)
Definition freeNumberBody : Values :=
  {| v_id := None; v_invoiceNumber := Some " inv-003 "; v_customerEmail := None;
     v_invoiceDate := None; v_dueDate := None; v_paymentStatus := None; v_pdfUrl := None;
     v_pdfData := None; v_pdfFileName := None; v_pdfMimeType := None; v_pdfSize := None;
     v_invoiceAmount := None; v_createdAt := None |}.

(** An update body that asks for the number of the second invoice. *)
Definition renumberBody : Values :=
  {| v_id := None; v_invoiceNumber := Some " inv-002"; v_customerEmail := None;
     v_invoiceDate := None; v_dueDate := None; v_paymentStatus := None; v_pdfUrl := None;
     v_pdfData := None; v_pdfFileName := None; v_pdfMimeType := None; v_pdfSize := None;
     v_invoiceAmount := None; v_createdAt := None |}.

(** A create body that also names columns the create route does not read. *)
Definition crowdedBody : Values :=
  {| v_id := Some "chosen-id"; v_invoiceNumber := Some "inv-001";
     v_customerEmail := Some "a@x.com"; v_invoiceDate := None;
     v_dueDate := Some 1735689600000%Z; v_paymentStatus := None;
     v_pdfUrl := Some "http://files.example/x.pdf"; v_pdfData := None;
     v_pdfFileName := Some "other.pdf"; v_pdfMimeType := None; v_pdfSize := Some 9%Z;
     v_invoiceAmount := Some "100.00"; v_createdAt := Some 0%Z |}.

(** GET /customer?email=... *)
Definition customerQuery (u : Principal) (e : string) : Request :=
  {| user := u; params_id := EmptyString; params_invoiceNumber := EmptyString;
     query_email := Some e; body := noValues; file := None; errors_isEmpty := true |}.

(** ** Facts about strings *)

Lemma isWhiteSpace_lowerChar (c : ascii) : isWhiteSpace (lowerChar c) = isWhiteSpace c.
Proof. destruct c as [[] [] [] [] [] [] [] []]; reflexivity. Qed.

Lemma isWhiteSpace_upperChar (c : ascii) : isWhiteSpace (upperChar c) = isWhiteSpace c.
Proof. destruct c as [[] [] [] [] [] [] [] []]; reflexivity. Qed.

Section MapAndTrim.

Variable f : ascii -> ascii.
Hypothesis f_keeps_space : forall c, isWhiteSpace (f c) = isWhiteSpace c.

Lemma trimStart_mapChars (s : string) :
  trimStart (mapChars f s) = mapChars f (trimStart s).
Proof.
  induction s as [|c s IH]; simpl; [reflexivity|].
  rewrite f_keeps_space. destruct (isWhiteSpace c); [exact IH | reflexivity].
Qed.

Lemma trimEnd_mapChars (s : string) :
  trimEnd (mapChars f s) = mapChars f (trimEnd s).
Proof.
  induction s as [|c s IH]; simpl; [reflexivity|].
  rewrite IH, f_keeps_space.
  destruct (trimEnd s); simpl; [destruct (isWhiteSpace c)|]; reflexivity.
Qed.

Lemma trim_mapChars (s : string) : trim (mapChars f s) = mapChars f (trim s).
Proof. unfold trim. now rewrite trimStart_mapChars, trimEnd_mapChars. Qed.

End MapAndTrim.

(** Trimming and lower-casing commute, so "the trimmed, lowercased form" does
    not depend on the order the setter picks. *)
Lemma trim_toLowerCase (s : string) : trim (toLowerCase s) = toLowerCase (trim s).
Proof. apply trim_mapChars, isWhiteSpace_lowerChar. Qed.

Lemma trim_toUpperCase (s : string) : trim (toUpperCase s) = toUpperCase (trim s).
Proof. apply trim_mapChars, isWhiteSpace_upperChar. Qed.

(** ** Facts about the store *)

Lemma existsb_false_inv (A : Type) (p : A -> bool) (l : list A) :
  existsb p l = false -> forall x, In x l -> p x = false.
Proof.
  intros H x Hx. destruct (p x) eqn:E; [|reflexivity].
  assert (existsb p l = true) by (apply existsb_exists; eauto). congruence.
Qed.

Lemma find_none_inv (A : Type) (p : A -> bool) (l : list A) :
  find p l = None <-> forall x, In x l -> p x = false.
Proof.
  split.
  - intros H x Hx. exact (find_none p l H x Hx).
  - induction l as [|a l IH]; simpl; intros H; [reflexivity|].
    rewrite (H a (or_introl eq_refl)). apply IH. intros x Hx. apply H. now right.
Qed.

Lemma find_app_fresh (A : Type) (p : A -> bool) (l : list A) (r : A) :
  (forall x, In x l -> p x = false) -> p r = true -> find p (l ++ [r]) = Some r.
Proof.
  induction l as [|a l IH]; simpl; intros Hl Hr.
  - now rewrite Hr.
  - rewrite (Hl a (or_introl eq_refl)). apply IH; [|exact Hr].
    intros x Hx. apply Hl. now right.
Qed.

Section Rewrite.

Variables (pk k : string) (g : Invoice -> Invoice).

Let rewritten (db : Store) : Store :=
  map (fun r => if hasId pk r then g r else r) db.

(** Where the rewritten rows are found, when they all carry key [k] and no
    other row does. *)
Lemma find_rewritten (db : Store) :
  (forall r, hasId pk r = true -> hasId k (g r) = true) ->
  (forall r, In r db -> hasId pk r = false -> hasId k r = false) ->
  find (hasId k) (rewritten db) = option_map g (find (hasId pk) db).
Proof.
  intros Hg. induction db as [|x db IH]; simpl; intros Hother; [reflexivity|].
  destruct (hasId pk x) eqn:Hx.
  - now rewrite (Hg x Hx).
  - rewrite (Hother x (or_introl eq_refl) Hx). apply IH.
    intros r Hr. apply Hother. now right.
Qed.

(** The rewritten rows are lost to their old key when they all move away. *)
Lemma find_rewritten_moved (db : Store) :
  (forall r, hasId pk r = true -> hasId pk (g r) = false) ->
  find (hasId pk) (rewritten db) = None.
Proof.
  intros Hg. induction db as [|x db IH]; simpl; [reflexivity|].
  destruct (hasId pk x) eqn:Hx.
  - now rewrite (Hg x Hx).
  - now rewrite Hx.
Qed.

Lemma rewritten_rows (db : Store) :
  Forall2 (fun r r' => r' = r \/ (hasId pk r = true /\ r' = g r)) db (rewritten db).
Proof.
  induction db as [|x db IH]; simpl; constructor; [|exact IH].
  destruct (hasId pk x); [right|left]; auto.
Qed.

End Rewrite.

Lemma hasId_applyValues (env : Env) (v : Values) (pk : string) (r : Invoice) :
  hasId pk r = true -> hasId (orElse (v_id v) pk) (applyValues env v r) = true.
Proof.
  unfold hasId. simpl. intros H. apply String.eqb_eq in H.
  destruct (v_id v); simpl; [apply String.eqb_refl | now apply String.eqb_eq].
Qed.

Section StoreFacts.

Variable isEmail : string -> bool.

Lemma Invoice_create_inr env v db r db' :
  Invoice_create isEmail env v db = (inr r, db') ->
  exists number e due,
    v_invoiceNumber v = Some number /\ v_customerEmail v = Some e
    /\ v_dueDate v = Some due /\ r = build env v number e due
    /\ isEmail (set_customerEmail e) = true
    /\ (forall o, In o db ->
          String.eqb (id o) (id r) = false
          /\ String.eqb (invoiceNumber o) (invoiceNumber r) = false)
    /\ db' = db ++ [r].
Proof.
  unfold Invoice_create.
  destruct (v_invoiceNumber v) as [number|]; [|discriminate].
  destruct (v_customerEmail v) as [e|]; [|discriminate].
  destruct (v_dueDate v) as [due|]; [|discriminate].
  cbv zeta.
  destruct (isEmail (customerEmail (build env v number e due))) eqn:Hmail;
    simpl negb; cbv iota; [|discriminate].
  match goal with
  | |- context [existsb ?p db] => destruct (existsb p db) eqn:Hex
  end; [discriminate|].
  intros H. injection H as <- <-.
  exists number, e, due. repeat split; auto.
  - generalize (existsb_false_inv _ _ Hex o H). intros Hb.
    now apply orb_false_iff in Hb.
  - generalize (existsb_false_inv _ _ Hex o H). intros Hb.
    now apply orb_false_iff in Hb.
Qed.

Lemma Invoice_create_inl env v db t db' :
  Invoice_create isEmail env v db = (inl t, db') -> db' = db.
Proof.
  unfold Invoice_create.
  destruct (v_invoiceNumber v); [|now intros [= _ <-]].
  destruct (v_customerEmail v); [|now intros [= _ <-]].
  destruct (v_dueDate v); [|now intros [= _ <-]].
  cbv zeta. destruct (negb _); [now intros [= _ <-]|].
  match goal with
  | |- context [existsb ?p db] => destruct (existsb p db)
  end; [now intros [= _ <-]|discriminate].
Qed.

(** Reading back what [Invoice.create] returned. *)
Lemma Invoice_create_readback env v db r db' :
  Invoice_create isEmail env v db = (inr r, db') ->
  findByPk (id r) db' = Some r
  /\ findOne_invoiceNumber (invoiceNumber r) db' = Some r.
Proof.
  intros H. apply Invoice_create_inr in H.
  destruct H as (number & e & due & _ & _ & _ & _ & _ & Hfresh & ->).
  split.
  - apply find_app_fresh; [|apply String.eqb_refl].
    intros o Ho. now apply Hfresh.
  - apply find_app_fresh; [|apply String.eqb_refl].
    intros o Ho. now apply Hfresh.
Qed.

(** The table an update leaves is the old one, or the old one with the rows
    of that id rewritten. *)
Lemma Invoice_update_store env v pk db :
  snd (Invoice_update isEmail env v pk db) = db
  \/ snd (Invoice_update isEmail env v pk db)
     = map (fun r => if hasId pk r then applyValues env v r else r) db.
Proof.
  unfold Invoice_update.
  destruct (negb _); [now left|].
  destruct (namesNoColumn v); [now left|].
  destruct (filter (hasId pk) db); [now left|].
  cbv zeta. destruct (_ || _); [now left | now right].
Qed.

Lemma Invoice_update_inr env v pk db n db' :
  Invoice_update isEmail env v pk db = (inr (S n), db') ->
  db' = map (fun r => if hasId pk r then applyValues env v r else r) db
  /\ (forall e, v_customerEmail v = Some e -> isEmail (set_customerEmail e) = true)
  /\ (forall i o, v_id v = Some i -> In o db -> hasId pk o = false -> hasId i o = false).
Proof.
  unfold Invoice_update.
  destruct (negb _) eqn:Hmail; [discriminate|].
  destruct (namesNoColumn v) eqn:Hnames; [discriminate|].
  destruct (filter (hasId pk) db) as [|m rest] eqn:Hm; [discriminate|].
  cbv zeta.
  destruct (_ || _) eqn:Hclash; [discriminate|].
  intros H. injection H as _ <-.
  apply orb_false_iff in Hclash. destruct Hclash as [Hid _].
  split; [reflexivity|]. split.
  - intros e He. rewrite He in Hmail. now apply negb_false_iff in Hmail.
  - intros i o Hi Ho Hpk. rewrite Hi in Hid.
    apply orb_false_iff in Hid. destruct Hid as [Hid _].
    apply (existsb_false_inv _ _ Hid o).
    apply filter_In. split; [exact Ho|]. now rewrite Hpk.
Qed.

(** Reading back the row an update rewrote, under the key it has now. *)
Lemma Invoice_update_readback env v pk db n db' :
  Invoice_update isEmail env v pk db = (inr (S n), db') ->
  findByPk (orElse (v_id v) pk) db'
  = option_map (applyValues env v) (findByPk pk db).
Proof.
  intros H. apply Invoice_update_inr in H. destruct H as (-> & _ & Hid).
  unfold findByPk. apply find_rewritten.
  - intros r. apply hasId_applyValues.
  - intros r Hr Hpk. destruct (v_id v) as [i|] eqn:Hi; simpl.
    + now apply (Hid i r).
    + exact Hpk.
Qed.

Lemma Invoice_update_hits env v pk db n db' :
  Invoice_update isEmail env v pk db = (inr (S n), db') ->
  exists r, findByPk pk db = Some r.
Proof.
  unfold Invoice_update.
  destruct (negb _); [discriminate|].
  destruct (namesNoColumn v); [discriminate|].
  destruct (filter (hasId pk) db) as [|m rest] eqn:Hm; [discriminate|].
  intros _. unfold findByPk.
  destruct (find (hasId pk) db) as [r|] eqn:Hf; [now exists r|].
  assert (In m (filter (hasId pk) db)) as Hin by (rewrite Hm; now left).
  apply filter_In in Hin. destruct Hin as [Hin Hhit].
  rewrite (proj1 (find_none_inv _ _) Hf m Hin) in Hhit. discriminate.
Qed.

End StoreFacts.

(** When [requireAdmin] answered, it answered 403. *)
Ltac turned_away H :=
  unfold requireAdmin in H;
  match type of H with
  | (if ?c then _ else _) = _ => destruct c; [discriminate H|]; injection H as <-
  end.

(** ** Access control *)

Section Properties.

Variable isEmail : string -> bool.

Lemma accessDenied_spec (u : Principal) (invoice : Invoice) :
  accessDenied u invoice = true
  <-> role u <> "admin" /\ email u <> customerEmail invoice.
Proof.
  unfold accessDenied. rewrite andb_true_iff, !negb_true_iff.
  now rewrite !String.eqb_neq.
Qed.

(** What a single-invoice read answers once the invoice is found. *)
Lemma singleRead_found op env req db invoice :
  singleRead op = true ->
  findByPk (params_id req) db = Some invoice ->
  (accessDenied (user req) invoice = true ->
     route isEmail op env req db = (mkResponse 403 (Message "Access denied"), db))
  /\ (accessDenied (user req) invoice = false ->
       status (fst (route isEmail op env req db)) <> 403
       /\ snd (route isEmail op env req db) = db).
Proof.
  intros Hop Hfind.
  destruct op; try discriminate Hop; simpl;
    unfold getInvoiceDetail, downloadPdf, viewPdf; rewrite Hfind;
    (split; intros ->; [reflexivity|]);
    try (destruct (pdfData invoice); [cbv zeta; destruct (_ && _)|]);
    simpl; split; (discriminate || reflexivity).
Qed.

(** C1, amended: on detail-fetch and on both attachment fetches, for the
    invoice the id designates, an admin is never refused; a principal who
    is not an admin is let through if and only if its email, compared as
    the authentication layer delivered it and without any case folding,
    equals the stored [customerEmail]; a refusal is the 403 "Access denied"
    answer and leaves the table alone.  For a principal whose email is
    already in lower case the test is the one on the case-folded email. *)
Theorem access_decision_exact_email op env req db invoice :
  singleRead op = true ->
  findByPk (params_id req) db = Some invoice ->
  (role (user req) = "admin" -> status (fst (route isEmail op env req db)) <> 403)
  /\ (role (user req) <> "admin" ->
       (status (fst (route isEmail op env req db)) <> 403
        <-> email (user req) = customerEmail invoice))
  /\ (status (fst (route isEmail op env req db)) = 403 ->
       route isEmail op env req db = (mkResponse 403 (Message "Access denied"), db))
  /\ (role (user req) <> "admin" ->
       toLowerCase (email (user req)) = email (user req) ->
       (status (fst (route isEmail op env req db)) <> 403
        <-> toLowerCase (email (user req)) = customerEmail invoice)).
Proof.
  intros Hop Hfind.
  destruct (singleRead_found op env req db Hop Hfind) as [Hdeny Hpass].
  assert (Hmain : role (user req) <> "admin" ->
            (status (fst (route isEmail op env req db)) <> 403
             <-> email (user req) = customerEmail invoice)).
  { intros Hrole. destruct (accessDenied (user req) invoice) eqn:Hd.
    - rewrite (Hdeny eq_refl). simpl. apply accessDenied_spec in Hd.
      split; [congruence | intros He; now destruct Hd].
    - split; [|intros _; now apply Hpass].
      intros _. destruct (String.eqb (email (user req)) (customerEmail invoice)) eqn:He.
      + now apply String.eqb_eq.
      + exfalso. apply String.eqb_neq in He.
        assert (accessDenied (user req) invoice = true) by now apply accessDenied_spec.
        congruence. }
  split; [|split; [exact Hmain|split]].
  - intros Hrole. destruct (accessDenied (user req) invoice) eqn:Hd.
    + apply accessDenied_spec in Hd. now destruct Hd.
    + now apply Hpass.
  - intros H403. destruct (accessDenied (user req) invoice) eqn:Hd.
    + now apply Hdeny.
    + now destruct (Hpass eq_refl).
  - intros Hrole Hlow. rewrite Hlow. now apply Hmain.
Qed.

(** ** What leaves the server *)

Lemma Forall_excludePdfData (l : list Invoice) :
  Forall (fun j : InvoiceJSON => pdfData j = KeyAbsent) (map excludePdfData l).
Proof. induction l; simpl; constructor; auto. Qed.

Lemma guarded_omits m h env req db :
  (forall res, m req = Some res -> omitsPdfData res) ->
  omitsPdfData (fst (h env req db)) ->
  omitsPdfData (fst (guarded m h env req db)).
Proof.
  intros Hm Hh. unfold guarded. destruct (m req) as [res|]; simpl; auto.
Qed.

Lemma requireAdmin_omits req res : requireAdmin req = Some res -> omitsPdfData res.
Proof.
  unfold requireAdmin. destruct (String.eqb _ _); [discriminate|].
  intros [= <-]. exact I.
Qed.

(** C2: every answer of update, full list, search, list-by-customer, detail
    and delete is without the [pdfData] key; the create answer is not: when
    a file was uploaded and the invoice was created (201), the answer holds
    the uploaded bytes under [pdfData], because the handler sends [invoice]
    and not the [responseInvoice] it has just stripped. *)
Theorem create_response_carries_pdfData env req db :
  omitsPdfData (fst (route isEmail Update env req db))
  /\ omitsPdfData (fst (route isEmail ListAll env req db))
  /\ omitsPdfData (fst (route isEmail Search env req db))
  /\ omitsPdfData (fst (route isEmail ListByCustomer env req db))
  /\ omitsPdfData (fst (route isEmail Detail env req db))
  /\ omitsPdfData (fst (route isEmail Delete env req db))
  /\ (forall f, file req = Some f ->
       status (fst (route isEmail Create env req db)) = 201 ->
       exists j, payload (fst (route isEmail Create env req db))
                 = WithInvoice (Some "Invoice created") j
                 /\ pdfData j = JsonBuffer (buffer f)).
Proof.
  repeat split.
  - apply guarded_omits; [apply requireAdmin_omits|].
    unfold updateInvoice. destruct (negb _); [exact I|].
    destruct (Invoice_update _ _ _ _ _) as [[t|[|n]] db']; try exact I.
    destruct (findByPk _ db'); [reflexivity | exact I].
  - apply guarded_omits; [apply requireAdmin_omits|].
    apply Forall_excludePdfData.
  - simpl. unfold searchByNumber.
    destruct (findOne_invoiceNumber _ _); [reflexivity | exact I].
  - simpl. unfold listByCustomer.
    destruct (query_email req); [apply Forall_excludePdfData | exact I].
  - simpl. unfold getInvoiceDetail. destruct (findByPk _ _); [|exact I].
    destruct (accessDenied _ _); [exact I | reflexivity].
  - apply guarded_omits; [apply requireAdmin_omits|].
    unfold deleteInvoice. destruct (Invoice_destroy _ _) as [[|n] db']; exact I.
  - intros f Hf. simpl. unfold guarded, requireAdmin.
    destruct (String.eqb _ _); [|discriminate].
    unfold createInvoice. destruct (negb _); [discriminate|].
    destruct (Invoice_create _ _ _ _) as [[t|invoice] db'] eqn:Hc; [discriminate|].
    intros _. eexists. split; [reflexivity|].
    apply Invoice_create_inr in Hc.
    destruct Hc as (number & e & due & _ & _ & _ & -> & _).
    unfold invoiceData. rewrite Hf. reflexivity.
Qed.

(** ** The two tiers of gating *)

(** C3: an admin-only operation (create, update, delete, full list) turns
    a principal that is not an admin away with 403 and an untouched table,
    whatever the invoice and whoever owns it, and its outcome never depends
    on the email of the principal; a single-invoice read (detail, download,
    view) of an invoice that exists answers 403 exactly when the access
    test fails; search-by-number and list-by-customer answer the same to
    every principal, and answer 200 whenever the row or the email is there. *)
Theorem two_tier_gating op env req db :
  (adminOnly op = true ->
     (role (user req) <> "admin" ->
        status (fst (route isEmail op env req db)) = 403
        /\ snd (route isEmail op env req db) = db)
     /\ (forall u', role u' = role (user req) ->
           route isEmail op env (withUser req u') db = route isEmail op env req db))
  /\ (singleRead op = true ->
       forall invoice, findByPk (params_id req) db = Some invoice ->
         (accessDenied (user req) invoice = true ->
            route isEmail op env req db = (mkResponse 403 (Message "Access denied"), db))
         /\ (accessDenied (user req) invoice = false ->
              status (fst (route isEmail op env req db)) <> 403))
  /\ (op = Search \/ op = ListByCustomer ->
       (forall u', route isEmail op env (withUser req u') db = route isEmail op env req db)
       /\ (forall invoice,
             op = Search ->
             findOne_invoiceNumber (params_invoiceNumber req) db = Some invoice ->
             fst (route isEmail op env req db)
             = mkResponse 200 (WithInvoice None (excludePdfData invoice)))
       /\ (forall e,
             op = ListByCustomer -> query_email req = Some e ->
             status (fst (route isEmail op env req db)) = 200)).
Proof.
  split; [|split].
  - intros Hop. split.
    + intros Hrole. apply String.eqb_neq in Hrole.
      destruct op; try discriminate Hop; simpl;
        unfold guarded, requireAdmin; rewrite Hrole; simpl; auto.
    + intros u' Hu'.
      destruct op; try discriminate Hop; simpl;
        unfold guarded, requireAdmin; simpl; rewrite Hu';
        destruct (String.eqb (role (user req)) "admin"); reflexivity.
  - intros Hop invoice Hfind.
    destruct (singleRead_found op env req db Hop Hfind) as [Hdeny Hpass].
    split; [exact Hdeny | intros Hd; now apply Hpass].
  - intros [-> | ->]; (split; [reflexivity|split]).
    + intros invoice _ Hf. simpl. unfold searchByNumber. now rewrite Hf.
    + intros e He. discriminate He.
    + intros invoice He. discriminate He.
    + intros e _ He. simpl. unfold listByCustomer. now rewrite He.
Qed.

(** ** The attachment sub-fields *)

Lemma Forall_filter_keep (A : Type) (P : A -> Prop) (f : A -> bool) (l : list A) :
  Forall P l -> Forall P (filter f l).
Proof.
  intros H. apply Forall_forall. intros x Hx. apply filter_In in Hx.
  now apply (proj1 (Forall_forall P l) H).
Qed.

Lemma attachmentShape_more (ups : list Upload) req r :
  attachmentShape ups r -> attachmentShape (uploadsOf req ++ ups) r.
Proof.
  intros [H|(f & Hf & H)]; [now left|].
  right. exists f. split; [apply in_or_app; now right | exact H].
Qed.

Lemma attachmentShape_build (ups : list Upload) env req number e due :
  attachmentShape (uploadsOf req ++ ups) (build env (invoiceData env req) number e due).
Proof.
  unfold attachmentShape, uploadsOf, invoiceData, attachmentOf.
  destruct (file req) as [f|]; simpl; [right | now left].
  exists f. split; [now left | reflexivity].
Qed.

Lemma attachmentShape_applyValues (ups : list Upload) env req r :
  (file req = None -> namesNoAttachment (body req)) ->
  attachmentShape ups r ->
  attachmentShape (uploadsOf req ++ ups) (applyValues env (updates req) r).
Proof.
  intros Hb Hr. unfold updates, uploadsOf in *. destruct (file req) as [f|].
  - right. exists f. split; [now left | reflexivity].
  - destruct (Hb eq_refl) as (Hd & Hn & Hm & Hs).
    assert (attachmentOf (applyValues env (body req) r) = attachmentOf r) as Hsame
        by (unfold attachmentOf; simpl; now rewrite Hd, Hn, Hm, Hs).
    unfold attachmentShape. rewrite Hsame. exact Hr.
Qed.

Lemma createInvoice_store env req db :
  snd (createInvoice isEmail env req db) = db
  \/ exists number e due,
       snd (createInvoice isEmail env req db)
       = db ++ [build env (invoiceData env req) number e due].
Proof.
  unfold createInvoice. destruct (negb _); [now left|].
  destruct (Invoice_create _ _ _ _) as [[t|invoice] db'] eqn:Hc; simpl.
  - left. now apply Invoice_create_inl in Hc.
  - right. apply Invoice_create_inr in Hc.
    destruct Hc as (number & e & due & _ & _ & _ & -> & _ & _ & ->).
    now exists number, e, due.
Qed.

Lemma updateInvoice_store env req db :
  snd (updateInvoice isEmail env req db) = db
  \/ snd (updateInvoice isEmail env req db)
     = map (fun r => if hasId (params_id req) r
                     then applyValues env (updates req) r else r) db.
Proof.
  assert (snd (updateInvoice isEmail env req db) = db
          \/ snd (updateInvoice isEmail env req db)
             = snd (Invoice_update isEmail env (updates req) (params_id req) db)) as [H|H].
  { unfold updateInvoice. destruct (negb _); [now left|]. right.
    destruct (Invoice_update _ _ _ _ _) as [[t|[|n]] db']; simpl; try reflexivity.
    now destruct (findByPk _ db'). }
  - now left.
  - rewrite H. apply Invoice_update_store.
Qed.

Lemma guarded_store m h env req db :
  snd (guarded m h env req db) = db
  \/ snd (guarded m h env req db) = snd (h env req db).
Proof. unfold guarded. destruct (m req); [now left | now right]. Qed.

Lemma read_store op env req db :
  adminOnly op = false -> snd (route isEmail op env req db) = db.
Proof.
  destruct op; try discriminate; intros _; simpl;
    unfold downloadPdf, viewPdf, searchByNumber, listByCustomer, getInvoiceDetail.
  - destruct (findByPk _ _); [|reflexivity].
    destruct (accessDenied _ _); [reflexivity|].
    destruct (pdfData _); [|reflexivity]. cbv zeta. now destruct (_ && _).
  - destruct (findByPk _ _); [|reflexivity].
    destruct (accessDenied _ _); [reflexivity|].
    destruct (pdfData _); [|reflexivity]. cbv zeta. now destruct (_ && _).
  - now destruct (findOne_invoiceNumber _ _).
  - now destruct (query_email req).
  - destruct (findByPk _ _); [|reflexivity]. now destruct (accessDenied _ _).
Qed.

(** C4, amended: in every table reached through the router by calls in
    which no update body names an attachment column, each invoice either
    has its four attachment sub-fields set together to the buffer, original
    name, mime type and size of one upload those calls brought, or has
    [pdfData], [pdfFileName] and [pdfSize] unset and [pdfMimeType] set to
    the default [application/pdf] of the column: the three are all set or
    all unset, and the mime type is always set. *)
Theorem attachment_shape_reachable ups db :
  reachablePlain isEmail ups db -> Forall (attachmentShape ups) db.
Proof.
  induction 1 as [|ups db op env req Hreach IH Hplain]; [constructor|].
  assert (Forall (attachmentShape (uploadsOf req ++ ups)) db) as IH'.
  { eapply Forall_impl; [|exact IH]. intros r. apply attachmentShape_more. }
  destruct (adminOnly op) eqn:Hop; [|now rewrite read_store].
  destruct op; try discriminate Hop; simpl.
  - destruct (guarded_store requireAdmin (createInvoice isEmail) env req db) as [->| ->];
      [exact IH'|].
    destruct (createInvoice_store env req db) as [->|(number & e & due & ->)];
      [exact IH'|].
    apply Forall_app. split; [exact IH'|].
    constructor; [apply attachmentShape_build | constructor].
  - destruct (guarded_store requireAdmin (updateInvoice isEmail) env req db) as [->| ->];
      [exact IH'|].
    destruct (updateInvoice_store env req db) as [->| ->]; [exact IH'|].
    apply Forall_forall. intros r' Hr'. apply in_map_iff in Hr'.
    destruct Hr' as (r & <- & Hr).
    destruct (hasId _ r);
      [|exact (proj1 (Forall_forall _ db) IH' r Hr)].
    apply attachmentShape_applyValues;
      [intros _; now apply Hplain | exact (proj1 (Forall_forall _ db) IH r Hr)].
  - now destruct (guarded_store requireAdmin listAll env req db) as [->| ->].
  - destruct (guarded_store requireAdmin deleteInvoice env req db) as [->| ->];
      [exact IH'|].
    unfold deleteInvoice, Invoice_destroy.
    destruct (length _); simpl; now apply Forall_filter_keep.
Qed.

Lemma filter_none_hit (A : Type) (p : A -> bool) (l : list A) :
  (forall x, In x l -> p x = false) -> filter p l = [].
Proof.
  induction l as [|a l IH]; simpl; intros H; [reflexivity|].
  rewrite (H a (or_introl eq_refl)). apply IH. intros x Hx. apply H. now right.
Qed.

Lemma isNone_true (A : Type) (o : option A) : isNone o = true -> o = None.
Proof. destruct o; [discriminate | reflexivity]. Qed.

(** An attribute bag that names the number, the email or the bytes names a
    column. *)
Lemma namesNoColumn_false v :
  v_invoiceNumber v <> None \/ v_customerEmail v <> None \/ v_pdfData v <> None ->
  namesNoColumn v = false.
Proof.
  intros H. destruct (namesNoColumn v) eqn:E; [|reflexivity]. exfalso.
  unfold namesNoColumn in E.
  repeat (apply andb_true_iff in E; let H' := fresh "N" in destruct E as [E H']).
  repeat match goal with
         | N : isNone _ = true |- _ => apply isNone_true in N
         end.
  destruct H as [H|[H|H]]; contradiction.
Qed.

(** When an update goes through: a column is named, a named email passes
    [isEmail], the id designates an invoice, and a named id or number is
    taken by no other invoice, only one invoice having the id. *)
Lemma Invoice_update_ok env v pk db r :
  namesNoColumn v = false ->
  (forall e, v_customerEmail v = Some e -> isEmail (set_customerEmail e) = true) ->
  findByPk pk db = Some r ->
  (forall i, v_id v = Some i ->
     length (filter (hasId pk) db) = 1
     /\ forall o, In o db -> hasId pk o = false -> id o <> i) ->
  (forall n, v_invoiceNumber v = Some n ->
     length (filter (hasId pk) db) = 1
     /\ forall o, In o db -> hasId pk o = false -> invoiceNumber o <> set_invoiceNumber n) ->
  exists k, Invoice_update isEmail env v pk db
            = (inr (S k), map (fun x => if hasId pk x then applyValues env v x else x) db).
Proof.
  intros Hnames Hmail Hf Hid Hnum. unfold Invoice_update. rewrite Hnames.
  replace (match v_customerEmail v with
           | Some e => isEmail (set_customerEmail e)
           | None => true
           end) with true
    by (destruct (v_customerEmail v) as [e|]; [symmetry; now apply Hmail | reflexivity]).
  simpl negb. cbv iota.
  destruct (filter (hasId pk) db) as [|m rest] eqn:Hm.
  { exfalso. destruct (find_some _ _ Hf) as [Hin Hhit].
    assert (In r (filter (hasId pk) db)) as H by (apply filter_In; auto).
    now rewrite Hm in H. }
  cbv zeta.
  assert (forall (f : Invoice -> string) (nv : string),
             length (m :: rest) = 1 ->
             (forall o, In o db -> hasId pk o = false -> f o <> nv) ->
             existsb (fun o => String.eqb (f o) nv)
                     (filter (fun x => negb (hasId pk x)) db)
             || negb (Nat.eqb (length rest) 0) = false) as Hfree.
  { intros f nv Hone Hfresh. apply orb_false_iff. split.
    - destruct (existsb _ _) eqn:Hex; [|reflexivity]. exfalso.
      apply existsb_exists in Hex. destruct Hex as (o & Ho & Heq).
      apply filter_In in Ho. destruct Ho as [Ho Hnot].
      apply negb_true_iff in Hnot. apply String.eqb_eq in Heq.
      exact (Hfresh o Ho Hnot Heq).
    - simpl in Hone. injection Hone as ->. reflexivity. }
  match goal with
  | |- context [if ?c then _ else _] => assert (c = false) as ->
  end.
  { apply orb_false_iff. split.
    - destruct (v_id v) as [i|] eqn:Hi; [|reflexivity].
      destruct (Hid i eq_refl) as [Hone Hfresh].
      exact (Hfree (fun o : Invoice => id o) i Hone Hfresh).
    - destruct (v_invoiceNumber v) as [n|] eqn:Hn; [|reflexivity].
      destruct (Hnum n eq_refl) as [Hone Hfresh].
      exact (Hfree (fun o : Invoice => invoiceNumber o) (set_invoiceNumber n)
               Hone Hfresh). }
  simpl. now exists (length rest).
Qed.

(** The rows of an id, when ids are unique. *)
Lemma filter_hasId_unique pk (db : Store) r :
  NoDup (map (fun o : Invoice => id o) db) ->
  findByPk pk db = Some r ->
  filter (hasId pk) db = [r].
Proof.
  induction db as [|a db IH]; simpl; intros Hnd Hf; [discriminate|].
  apply NoDup_cons_iff in Hnd. destruct Hnd as [Hfresh Hrest].
  unfold findByPk in Hf. simpl in Hf. destruct (hasId pk a) eqn:Ha.
  - injection Hf as <-. f_equal. apply filter_none_hit.
    intros x Hx. destruct (hasId pk x) eqn:Hx'; [|reflexivity].
    exfalso. apply Hfresh. unfold hasId in *.
    apply String.eqb_eq in Ha. apply String.eqb_eq in Hx'.
    rewrite Ha, <- Hx'. now apply (in_map (fun o : Invoice => id o)).
  - now apply IH.
Qed.

(** An admin's valid update of an existing invoice, whose body names a
    column but not the id, a valid email if any, and a number no other
    invoice has if any, is answered 200. *)
Lemma route_update_ok env req db r :
  role (user req) = "admin" -> errors_isEmpty req = true ->
  findByPk (params_id req) db = Some r ->
  NoDup (map (fun o : Invoice => id o) db) ->
  namesNoColumn (updates req) = false ->
  v_id (body req) = None ->
  (forall e, v_customerEmail (body req) = Some e -> isEmail (set_customerEmail e) = true) ->
  (forall n, v_invoiceNumber (body req) = Some n ->
     forall o, In o db -> id o <> params_id req -> invoiceNumber o <> set_invoiceNumber n) ->
  status (fst (route isEmail Update env req db)) = 200.
Proof.
  intros Hrole Herr Hr Hnd Hnames Hid Hmail Hnum.
  assert (v_id (updates req) = None
          /\ v_customerEmail (updates req) = v_customerEmail (body req)
          /\ v_invoiceNumber (updates req) = v_invoiceNumber (body req)) as (Ei & Ee & En).
  { unfold updates. destruct (file req); simpl; auto. }
  destruct (@Invoice_update_ok env (updates req) (params_id req) db r) as [k Hu]; auto.
  - rewrite Ee. exact Hmail.
  - intros i Hi. congruence.
  - intros n Hn. rewrite En in Hn. split.
    + now rewrite (@filter_hasId_unique (params_id req) db r Hnd Hr).
    + intros o Ho Hnot. apply (Hnum n Hn o Ho).
      unfold hasId in Hnot. now apply String.eqb_neq.
  - unfold route, guarded, requireAdmin. rewrite Hrole. simpl.
    unfold updateInvoice. rewrite Herr. simpl. rewrite Hu.
    pose proof (Invoice_update_readback _ _ _ _ _ Hu) as Hback.
    rewrite Ei, Hr in Hback. simpl in Hback. now rewrite Hback.
Qed.

(** ** What the two writing routes did when they say so *)

(** A create answered 201 appended the row built from [invoiceData], under
    the fresh id. *)
Lemma route_create_201 env req db :
  status (fst (route isEmail Create env req db)) = 201 ->
  exists number e due,
    v_invoiceNumber (body req) = Some number
    /\ v_customerEmail (body req) = Some e
    /\ v_dueDate (body req) = Some due
    /\ route isEmail Create env req db
       = (mkResponse 201 (WithInvoice (Some "Invoice created")
                            (createdJSON (build env (invoiceData env req) number e due))),
          db ++ [build env (invoiceData env req) number e due])
    /\ findByPk (env_uuid env) (db ++ [build env (invoiceData env req) number e due])
       = Some (build env (invoiceData env req) number e due).
Proof.
  simpl. unfold guarded.
  destruct (requireAdmin req) as [res|] eqn:Hadm; [turned_away Hadm; discriminate|].
  unfold createInvoice. destruct (negb _); [discriminate|].
  destruct (Invoice_create _ _ _ _) as [[t|invoice] db'] eqn:Hc; [discriminate|].
  intros _. pose proof (Invoice_create_readback _ _ _ _ Hc) as [Hback _].
  apply Invoice_create_inr in Hc.
  destruct Hc as (number & e & due & Hn & He & Hd & -> & _ & _ & ->).
  exists number, e, due.
  assert (v_invoiceNumber (invoiceData env req) = v_invoiceNumber (body req)
          /\ v_customerEmail (invoiceData env req) = v_customerEmail (body req)
          /\ v_dueDate (invoiceData env req) = v_dueDate (body req)
          /\ v_id (invoiceData env req) = None) as (En & Ee & Ed & Ei).
  { unfold invoiceData. destruct (file req); simpl; auto. }
  rewrite <- En, <- Ee, <- Ed. repeat split; auto.
  replace (env_uuid env) with (id (build env (invoiceData env req) number e due));
    [exact Hback|].
  simpl. now rewrite Ei.
Qed.

(** An update answered 200 rewrote the invoice of that id, and only with
    the values of [updates]. *)
Lemma route_update_200 env req db :
  status (fst (route isEmail Update env req db)) = 200 ->
  exists r,
    findByPk (params_id req) db = Some r
    /\ findByPk (params_id req) (snd (route isEmail Update env req db))
       = Some (applyValues env (updates req) r)
    /\ fst (route isEmail Update env req db)
       = mkResponse 200 (WithInvoice (Some "Invoice updated")
                           (deletePdfData (toJSON (applyValues env (updates req) r)))).
Proof.
  simpl. unfold guarded.
  destruct (requireAdmin req) as [res|] eqn:Hadm; [turned_away Hadm; discriminate|].
  unfold updateInvoice. destruct (negb _); [discriminate|].
  destruct (Invoice_update _ _ _ _ _) as [[t|[|n]] db'] eqn:Hu; try discriminate.
  destruct (findByPk (params_id req) db') as [invoice|] eqn:Hf; [|discriminate].
  intros _. simpl.
  destruct (Invoice_update_hits _ _ _ _ _ Hu) as [r Hr].
  pose proof (Invoice_update_readback _ _ _ _ _ Hu) as Hback.
  rewrite Hr in Hback. simpl in Hback.
  assert (orElse (v_id (updates req)) (params_id req) = params_id req) as Hkey.
  { destruct (v_id (updates req)) as [i|] eqn:Hi; [|reflexivity]. simpl.
    destruct (String.eqb i (params_id req)) eqn:Heq; [now apply String.eqb_eq|].
    exfalso. apply Invoice_update_inr in Hu. destruct Hu as (-> & _).
    unfold findByPk in Hf. rewrite find_rewritten_moved in Hf; [discriminate|].
    intros x _. unfold hasId. simpl. now rewrite Hi. }
  rewrite Hkey, Hf in Hback. injection Hback as ->.
  exists r. auto.
Qed.

(** ** Normalisation on write *)

Lemma Invoice_create_duplicate env v db o number e due :
  v_invoiceNumber v = Some number -> v_customerEmail v = Some e ->
  v_dueDate v = Some due -> isEmail (set_customerEmail e) = true ->
  In o db -> invoiceNumber o = set_invoiceNumber number ->
  Invoice_create isEmail env v db = (inl DuplicateKey, db).
Proof.
  intros Hn He Hd Hmail Ho Heq. unfold Invoice_create.
  rewrite Hn, He, Hd. cbv zeta.
  replace (isEmail (customerEmail (build env v number e due))) with true
    by (symmetry; exact Hmail).
  simpl negb. cbv iota.
  match goal with
  | |- context [existsb ?p db] => replace (existsb p db) with true; [reflexivity|]
  end.
  symmetry. apply existsb_exists. exists o. split; [exact Ho|].
  apply orb_true_iff. right. apply String.eqb_eq. exact Heq.
Qed.

(** C5: the invoice number a successful create or update leaves in the
    table, read back by key, is the trimmed, upper-cased form of the string
    that was written, both for the store calls and for the routes that make
    them (create answered 201, update answered 200); an update does go
    through and store that form: an admin's valid request that names a
    number no other invoice has, for an invoice that exists in a table with
    unique ids, is answered 200 and leaves the normalised number in the
    table; and when two numbers agree after that normalisation, creating
    the second (otherwise valid) invoice after the first fails with
    DuplicateKey and the table is the one the first create left; the create
    route then answers an error and leaves the table alone too. *)
Theorem invoiceNumber_normalized_and_unique :
  (forall env v db r db' n,
      Invoice_create isEmail env v db = (inr r, db') ->
      v_invoiceNumber v = Some n ->
      findByPk (id r) db' = Some r /\ invoiceNumber r = toUpperCase (trim n))
  /\ (forall env v pk db k db' n,
        Invoice_update isEmail env v pk db = (inr (S k), db') ->
        v_invoiceNumber v = Some n ->
        exists r', findByPk (orElse (v_id v) pk) db' = Some r'
                   /\ invoiceNumber r' = toUpperCase (trim n))
  /\ (forall env req db n,
        status (fst (route isEmail Create env req db)) = 201 ->
        v_invoiceNumber (body req) = Some n ->
        exists r', findByPk (env_uuid env) (snd (route isEmail Create env req db)) = Some r'
                   /\ invoiceNumber r' = toUpperCase (trim n))
  /\ (forall env req db n,
        status (fst (route isEmail Update env req db)) = 200 ->
        v_invoiceNumber (body req) = Some n ->
        exists r', findByPk (params_id req) (snd (route isEmail Update env req db)) = Some r'
                   /\ invoiceNumber r' = toUpperCase (trim n))
  /\ (forall env req db r n,
        role (user req) = "admin" -> errors_isEmpty req = true ->
        findByPk (params_id req) db = Some r ->
        NoDup (map (fun o : Invoice => id o) db) ->
        v_id (body req) = None ->
        v_invoiceNumber (body req) = Some n ->
        (forall e, v_customerEmail (body req) = Some e ->
                   isEmail (trim (toLowerCase e)) = true) ->
        (forall o, In o db -> id o <> params_id req ->
                   invoiceNumber o <> toUpperCase (trim n)) ->
        status (fst (route isEmail Update env req db)) = 200
        /\ exists r', findByPk (params_id req) (snd (route isEmail Update env req db))
                      = Some r'
                      /\ invoiceNumber r' = toUpperCase (trim n))
  /\ (forall env1 v1 db r1 db1 env2 v2 n1 n2 e2 due2,
        v_invoiceNumber v1 = Some n1 -> v_invoiceNumber v2 = Some n2 ->
        toUpperCase (trim n1) = toUpperCase (trim n2) ->
        Invoice_create isEmail env1 v1 db = (inr r1, db1) ->
        v_customerEmail v2 = Some e2 -> v_dueDate v2 = Some due2 ->
        isEmail (set_customerEmail e2) = true ->
        Invoice_create isEmail env2 v2 db1 = (inl DuplicateKey, db1)
        /\ forall req2, body req2 = v2 ->
             status (fst (route isEmail Create env2 req2 db1)) <> 201
             /\ snd (route isEmail Create env2 req2 db1) = db1).
Proof.
  assert (Hwritten : forall env req db n,
             status (fst (route isEmail Update env req db)) = 200 ->
             v_invoiceNumber (body req) = Some n ->
             exists r', findByPk (params_id req) (snd (route isEmail Update env req db))
                        = Some r'
                        /\ invoiceNumber r' = toUpperCase (trim n)).
  { intros env req db n H200 Hn.
    destruct (route_update_200 env req db H200) as (r & _ & Hback & _).
    eexists. split; [exact Hback|].
    simpl. unfold updates. destruct (file req); simpl; now rewrite Hn. }
  split; [|split; [|split; [|split; [|split]]]].
  - intros env v db r db' n Hc Hn. split.
    + now apply (Invoice_create_readback isEmail env v db).
    + apply Invoice_create_inr in Hc.
      destruct Hc as (number & e & due & Hn' & _ & _ & -> & _).
      rewrite Hn in Hn'. now injection Hn' as ->.
  - intros env v pk db k db' n Hu Hn.
    destruct (Invoice_update_hits _ _ _ _ _ Hu) as [r Hr].
    exists (applyValues env v r). split.
    + rewrite (Invoice_update_readback _ _ _ _ _ Hu), Hr. reflexivity.
    + simpl. now rewrite Hn.
  - intros env req db n H201 Hn.
    destruct (route_create_201 env req db H201)
      as (number & e & due & Hn' & _ & _ & -> & Hback).
    rewrite Hn in Hn'. injection Hn' as <-.
    eexists. split; [exact Hback | reflexivity].
  - exact Hwritten.
  - intros env req db r n Hrole Herr Hr Hnd Hid Hn Hmail Hfree.
    assert (status (fst (route isEmail Update env req db)) = 200) as H200.
    { apply (@route_update_ok env req db r); auto.
      - apply namesNoColumn_false. left. unfold updates.
        destruct (file req); simpl; rewrite Hn; discriminate.
      - intros n' Hn'. rewrite Hn in Hn'. injection Hn' as <-. exact Hfree. }
    split; [exact H200 | now apply Hwritten].
  - intros env1 v1 db r1 db1 env2 v2 n1 n2 e2 due2 Hn1 Hn2 Hsame Hc He2 Hd2 Hmail.
    assert (In r1 db1 /\ invoiceNumber r1 = set_invoiceNumber n2) as [Hin Hnum].
    { apply Invoice_create_inr in Hc.
      destruct Hc as (number & e & due & Hn' & _ & _ & -> & _ & _ & ->).
      rewrite Hn1 in Hn'. injection Hn' as ->.
      split; [apply in_or_app; right; now left | exact Hsame]. }
    split.
    + now apply (Invoice_create_duplicate env2 v2 db1 r1 Hn2 He2 Hd2 Hmail Hin).
    + intros req2 Hb. simpl. unfold guarded.
      destruct (requireAdmin req2) as [res|] eqn:Hadm.
      * turned_away Hadm. simpl. split; [discriminate | reflexivity].
      * unfold createInvoice. destruct (negb _); [simpl; split; [discriminate|reflexivity]|].
        assert (v_invoiceNumber (invoiceData env2 req2) = Some n2
                /\ v_customerEmail (invoiceData env2 req2) = Some e2
                /\ v_dueDate (invoiceData env2 req2) = Some due2) as (Hn & He & Hd).
        { unfold invoiceData. rewrite Hb. destruct (file req2); simpl; auto. }
        rewrite (Invoice_create_duplicate env2 (invoiceData env2 req2) db1 r1
                   Hn He Hd Hmail Hin Hnum).
        simpl. split; [discriminate | reflexivity].
Qed.

(** C9: the [customerEmail] a successful create or update leaves in the
    table, read back by key, is the trimmed, lower-cased form of the email
    that was written (the two orders of trimming and lower-casing agree);
    so it is for the store calls, and so it is for the routes: after a create
    answered 201, and after an update answered 200, the detail-fetch of an
    admin returns the invoice with that email.  An update does go through
    and store that form: an admin's valid request that names an email whose
    normal form passes [isEmail] (and a number, if any, that no other
    invoice has), for an invoice that exists in a table with unique ids, is
    answered 200, and the detail-fetch that follows returns that form. *)
Theorem customerEmail_roundtrip :
  (forall env v db r db' e,
      Invoice_create isEmail env v db = (inr r, db') ->
      v_customerEmail v = Some e ->
      exists r', findByPk (id r) db' = Some r'
                 /\ customerEmail r' = toLowerCase (trim e)
                 /\ customerEmail r' = trim (toLowerCase e))
  /\ (forall env v pk db k db' e,
        Invoice_update isEmail env v pk db = (inr (S k), db') ->
        v_customerEmail v = Some e ->
        exists r', findByPk (orElse (v_id v) pk) db' = Some r'
                   /\ customerEmail r' = toLowerCase (trim e)
                   /\ customerEmail r' = trim (toLowerCase e))
  /\ (forall env req db e env' req',
        status (fst (route isEmail Create env req db)) = 201 ->
        v_customerEmail (body req) = Some e ->
        role (user req') = "admin" -> params_id req' = env_uuid env ->
        exists j, fst (route isEmail Detail env' req' (snd (route isEmail Create env req db)))
                  = mkResponse 200 (WithInvoice None j)
                  /\ customerEmail j = toLowerCase (trim e))
  /\ (forall env req db e env' req',
        status (fst (route isEmail Update env req db)) = 200 ->
        v_customerEmail (body req) = Some e ->
        role (user req') = "admin" -> params_id req' = params_id req ->
        exists j, fst (route isEmail Detail env' req' (snd (route isEmail Update env req db)))
                  = mkResponse 200 (WithInvoice None j)
                  /\ customerEmail j = toLowerCase (trim e))
  /\ (forall env req db r e env' req',
        role (user req) = "admin" -> errors_isEmpty req = true ->
        findByPk (params_id req) db = Some r ->
        NoDup (map (fun o : Invoice => id o) db) ->
        v_id (body req) = None ->
        v_customerEmail (body req) = Some e ->
        isEmail (trim (toLowerCase e)) = true ->
        (forall n, v_invoiceNumber (body req) = Some n ->
           forall o, In o db -> id o <> params_id req ->
                     invoiceNumber o <> toUpperCase (trim n)) ->
        role (user req') = "admin" -> params_id req' = params_id req ->
        status (fst (route isEmail Update env req db)) = 200
        /\ exists j,
             fst (route isEmail Detail env' req' (snd (route isEmail Update env req db)))
             = mkResponse 200 (WithInvoice None j)
             /\ customerEmail j = toLowerCase (trim e)).
Proof.
  assert (Hdetail : forall env' req' db' r',
             role (user req') = "admin" -> findByPk (params_id req') db' = Some r' ->
             fst (route isEmail Detail env' req' db')
             = mkResponse 200 (WithInvoice None (excludePdfData r'))).
  { intros env' req' db' r' Hrole Hf. simpl. unfold getInvoiceDetail, accessDenied.
    now rewrite Hf, Hrole. }
  assert (Hread : forall env req db e env' req',
             status (fst (route isEmail Update env req db)) = 200 ->
             v_customerEmail (body req) = Some e ->
             role (user req') = "admin" -> params_id req' = params_id req ->
             exists j,
               fst (route isEmail Detail env' req' (snd (route isEmail Update env req db)))
               = mkResponse 200 (WithInvoice None j)
               /\ customerEmail j = toLowerCase (trim e)).
  { intros env req db e env' req' H200 He Hrole Hid.
    destruct (route_update_200 env req db H200) as (r & _ & Hback & _).
    eexists. split.
    - apply Hdetail; [exact Hrole|]. rewrite Hid. exact Hback.
    - simpl. unfold updates. destruct (file req); simpl; rewrite He; simpl;
        apply trim_toLowerCase. }
  split; [|split; [|split; [|split]]].
  - intros env v db r db' e Hc He. exists r.
    split; [now apply (Invoice_create_readback isEmail env v db)|].
    apply Invoice_create_inr in Hc.
    destruct Hc as (number & e' & due & _ & He' & _ & -> & _).
    rewrite He in He'. injection He' as <-. simpl. unfold set_customerEmail.
    split; [apply trim_toLowerCase | reflexivity].
  - intros env v pk db k db' e Hu He.
    destruct (Invoice_update_hits _ _ _ _ _ Hu) as [r Hr].
    exists (applyValues env v r). split.
    + rewrite (Invoice_update_readback _ _ _ _ _ Hu), Hr. reflexivity.
    + simpl. rewrite He. simpl. unfold set_customerEmail.
      split; [apply trim_toLowerCase | reflexivity].
  - intros env req db e env' req' H201 He Hrole Hid.
    destruct (route_create_201 env req db H201)
      as (number & e' & due & _ & He' & _ & -> & Hback).
    rewrite He in He'. injection He' as <-.
    eexists. split.
    + apply Hdetail; [exact Hrole|]. rewrite Hid. exact Hback.
    + simpl. apply trim_toLowerCase.
  - exact Hread.
  - intros env req db r e env' req' Hrole Herr Hr Hnd Hid He Hmail Hfree Hrole' Hid'.
    assert (status (fst (route isEmail Update env req db)) = 200) as H200.
    { apply (@route_update_ok env req db r); auto.
      - apply namesNoColumn_false. right. left. unfold updates.
        destruct (file req); simpl; rewrite He; discriminate.
      - intros e' He'. rewrite He in He'. injection He' as <-. exact Hmail. }
    split; [exact H200 | now apply (Hread env req db e env' req')].
Qed.

(** ** Search by number *)

(** C10: search-by-number answers NotFound exactly when no stored invoice
    number is, letter for letter, the string asked for; so after a number
    [n] that its own normalisation changes has been created into a table
    that did not hold [n], asking for [n] is answered NotFound, although
    the invoice is there and is returned when its normalised number is
    asked for. *)
Theorem search_compares_verbatim :
  (forall env req db,
      fst (route isEmail Search env req db) = mkResponse 404 (Message "Invoice not found")
      <-> forall o, In o db -> invoiceNumber o <> params_invoiceNumber req)
  /\ (forall env v db r db' n envq req,
        Invoice_create isEmail env v db = (inr r, db') ->
        v_invoiceNumber v = Some n ->
        toUpperCase (trim n) <> n ->
        findOne_invoiceNumber n db = None ->
        params_invoiceNumber req = n ->
        route isEmail Search envq req db'
        = (mkResponse 404 (Message "Invoice not found"), db')
        /\ In r db'
        /\ forall req', params_invoiceNumber req' = toUpperCase (trim n) ->
             route isEmail Search envq req' db'
             = (mkResponse 200 (WithInvoice None (excludePdfData r)), db')).
Proof.
  split.
  - intros env req db. simpl. unfold searchByNumber, findOne_invoiceNumber.
    destruct (find (fun r => String.eqb (invoiceNumber r) (params_invoiceNumber req)) db)
      as [o|] eqn:Hf; simpl.
    + split; [discriminate|]. intros H. exfalso.
      destruct (find_some _ _ Hf) as [Ho Heq]. apply String.eqb_eq in Heq.
      exact (H o Ho Heq).
    + split; [|reflexivity]. intros _ o Ho.
      apply String.eqb_neq. exact (proj1 (find_none_inv _ _) Hf o Ho).
  - intros env v db r db' n envq req Hc Hn Hchg Hnone Hreq.
    pose proof (Invoice_create_readback _ _ _ _ Hc) as [_ Hback].
    apply Invoice_create_inr in Hc.
    destruct Hc as (number & e & due & Hn' & _ & _ & Hr & _ & _ & ->).
    rewrite Hn in Hn'. injection Hn' as <-.
    assert (invoiceNumber r = toUpperCase (trim n)) as Hnum by now rewrite Hr.
    split; [|split].
    + assert (findOne_invoiceNumber n (db ++ [r]) = None) as Hmiss.
      { apply find_none_inv. intros x Hx.
        apply in_app_or in Hx. destruct Hx as [Hx|[<-|[]]].
        - exact (proj1 (find_none_inv _ _) Hnone x Hx).
        - apply String.eqb_neq. now rewrite Hnum. }
      simpl. unfold searchByNumber. now rewrite Hreq, Hmiss.
    + apply in_or_app. right. now left.
    + intros req' Hreq'. simpl. unfold searchByNumber. rewrite Hreq', <- Hnum.
      now rewrite Hback.
Qed.

(** ** Updates and the attachment *)

Lemma Invoice_update_plain env v pk db r :
  namesNoColumn v = false ->
  v_id v = None -> v_invoiceNumber v = None -> v_customerEmail v = None ->
  findByPk pk db = Some r ->
  exists n, Invoice_update isEmail env v pk db
            = (inr (S n), map (fun x => if hasId pk x then applyValues env v x else x) db).
Proof.
  intros Hnames Hi Hn He Hf. apply (@Invoice_update_ok env v pk db r); auto.
  - intros e He'. congruence.
  - intros i Hi'. congruence.
  - intros n Hn'. congruence.
Qed.

Lemma Forall2_same (A : Type) (R : A -> A -> Prop) (l : list A) :
  (forall x, R x x) -> Forall2 R l l.
Proof. intros H. induction l; constructor; auto. Qed.

(** C7: when an update request brings a file, every row of the table
    afterwards is the row as it was, or has its four attachment sub-fields
    taken together from the upload (buffer, original name, mime type,
    size): no row mixes the two; and an update answered 200 has replaced
    all four in the invoice of that id.  An admin's valid request for an
    existing invoice, with a body that names neither the id nor a
    normalised column, is answered 200. *)
Theorem update_with_file_replaces_attachment env req db f :
  file req = Some f ->
  Forall2 (fun r r' => r' = r \/ attachmentOf r' = attachmentOfUpload f)
          db (snd (route isEmail Update env req db))
  /\ (status (fst (route isEmail Update env req db)) = 200 ->
       exists r', findByPk (params_id req) (snd (route isEmail Update env req db)) = Some r'
                  /\ pdfData r' = Some (buffer f)
                  /\ pdfFileName r' = Some (originalname f)
                  /\ pdfMimeType r' = Some (mimetype f)
                  /\ pdfSize r' = Some (size f))
  /\ (role (user req) = "admin" -> errors_isEmpty req = true ->
       (exists r, findByPk (params_id req) db = Some r) ->
       v_id (body req) = None -> v_invoiceNumber (body req) = None ->
       v_customerEmail (body req) = None ->
       status (fst (route isEmail Update env req db)) = 200).
Proof.
  intros Hfile.
  assert (Hup : updates req = attach f (body req)) by (unfold updates; now rewrite Hfile).
  split; [|split].
  - simpl.
    destruct (guarded_store requireAdmin (updateInvoice isEmail) env req db) as [->| ->];
      [apply Forall2_same; now left|].
    destruct (updateInvoice_store env req db) as [->| ->];
      [apply Forall2_same; now left|].
    eapply Forall2_impl; [|apply rewritten_rows].
    intros r r' [->|[_ ->]]; [now left|right].
    rewrite Hup. reflexivity.
  - intros H200. destruct (route_update_200 env req db H200) as (r & _ & Hback & _).
    exists (applyValues env (updates req) r). split; [exact Hback|].
    rewrite Hup. simpl. auto.
  - intros Hrole Herr [r Hr] Hi Hn He. simpl. unfold guarded, requireAdmin.
    rewrite Hrole. simpl. unfold updateInvoice. rewrite Herr. simpl.
    destruct (Invoice_update_plain env (updates req) (params_id req) db (r:=r))
      as [n Hu]; try (rewrite Hup; simpl; assumption); [|exact Hr|].
    { apply namesNoColumn_false. right. right. rewrite Hup. discriminate. }
    rewrite Hu.
    pose proof (Invoice_update_readback _ _ _ _ _ Hu) as Hback.
    replace (v_id (updates req)) with (@None string) in Hback
      by (rewrite Hup; simpl; now rewrite Hi).
    simpl in Hback. rewrite Hback, Hr. reflexivity.
Qed.

(** C6, amended: an update request that brings no file and whose body names
    none of the four attachment columns leaves the attachment of every row
    (bytes, file name, mime type, size) as it was; when it is answered 200,
    the invoice of that id has, column by column, the value the body gives
    (through the setter for [invoiceNumber] and [customerEmail]) or else
    the value it had; [updatedAt] alone is refreshed by the store. *)
Theorem update_without_file_keeps_attachment env req db :
  file req = None ->
  namesNoAttachment (body req) ->
  map attachmentOf (snd (route isEmail Update env req db)) = map attachmentOf db
  /\ (status (fst (route isEmail Update env req db)) = 200 ->
       exists r r',
         findByPk (params_id req) db = Some r
         /\ findByPk (params_id req) (snd (route isEmail Update env req db)) = Some r'
         /\ attachmentOf r' = attachmentOf r
         /\ id r' = orElse (v_id (body req)) (id r)
         /\ invoiceNumber r'
            = orElse (option_map (fun n => toUpperCase (trim n)) (v_invoiceNumber (body req)))
                     (invoiceNumber r)
         /\ customerEmail r'
            = orElse (option_map (fun e => trim (toLowerCase e)) (v_customerEmail (body req)))
                     (customerEmail r)
         /\ invoiceDate r' = orElse (v_invoiceDate (body req)) (invoiceDate r)
         /\ dueDate r' = orElse (v_dueDate (body req)) (dueDate r)
         /\ paymentStatus r' = orElse (v_paymentStatus (body req)) (paymentStatus r)
         /\ invoiceAmount r' = orElse (v_invoiceAmount (body req)) (invoiceAmount r)
         /\ pdfUrl r' = match v_pdfUrl (body req) with Some u => Some u | None => pdfUrl r end
         /\ createdAt r' = orElse (v_createdAt (body req)) (createdAt r)
         /\ updatedAt r' = env_now env).
Proof.
  intros Hfile (Hd & Hn & Hm & Hs).
  assert (Hup : updates req = body req) by (unfold updates; now rewrite Hfile).
  assert (Hkeep : forall r, attachmentOf (applyValues env (body req) r) = attachmentOf r).
  { intros r. unfold attachmentOf. simpl. now rewrite Hd, Hn, Hm, Hs. }
  split.
  - simpl.
    destruct (guarded_store requireAdmin (updateInvoice isEmail) env req db) as [->| ->];
      [reflexivity|].
    destruct (updateInvoice_store env req db) as [->| ->]; [reflexivity|].
    rewrite map_map. apply map_ext. intros r.
    destruct (hasId _ r); [|reflexivity]. rewrite Hup. apply Hkeep.
  - intros H200. destruct (route_update_200 env req db H200) as (r & Hr & Hback & _).
    exists r, (applyValues env (updates req) r).
    rewrite Hup in *. split; [exact Hr|]. split; [exact Hback|].
    split; [apply Hkeep|]. simpl. repeat split; reflexivity.
Qed.

(** ** Fetching the attachment *)

Lemma orString_cases (a : option string) (b : string) :
  orString a b
  = match a with
    | Some s => if String.eqb s EmptyString then b else s
    | None => b
    end.
Proof. destruct a as [[|c s]|]; reflexivity. Qed.

Lemma validHeaderValue_app (a b : string) :
  validHeaderValue (a ++ b) = validHeaderValue a && validHeaderValue b.
Proof.
  induction a as [|c a IH]; simpl; [reflexivity|]. now rewrite IH, andb_assoc.
Qed.

(** The quotes and the fixed words of the disposition are fit for a header:
    whether the header is, hangs on the file name. *)
Lemma validHeaderValue_quoted (words name : string) :
  validHeaderValue words = true ->
  validHeaderValue (words ++ dquote ++ name ++ dquote) = validHeaderValue name.
Proof.
  intros Hw. rewrite !validHeaderValue_app, Hw.
  change (validHeaderValue dquote) with true. simpl. apply andb_true_r.
Qed.


End Properties.

(** ** The properties at work on sample requests *)

Lemma access_decision_exact_email_witness :
  singleRead Download = true
  /\ findByPk "uuid-1" storeWithPdf = Some invoiceWithPdf
  /\ (status (fst (route sampleIsEmail Download env2
                     (request customerA "uuid-1" noValues None) storeWithPdf)) <> 403
      <-> email customerA = customerEmail invoiceWithPdf).
Proof.
  split; [reflexivity|]. split; [reflexivity|].
  refine (proj1 (proj2 (access_decision_exact_email sampleIsEmail Download env2
                          (request customerA "uuid-1" noValues None) storeWithPdf
                          (invoice:=invoiceWithPdf) _ _)) _).
  - reflexivity.
  - reflexivity.
  - simpl. discriminate.
Defined.

(** C1 as stated fails: a principal that is not an admin and whose email,
    once case-folded, is the stored [customerEmail] is refused by detail,
    download and view alike. *)
Lemma access_ignores_case_folding :
  findByPk "uuid-1" storeWithPdf = Some invoiceWithPdf
  /\ role customerMixedCase <> "admin"
  /\ toLowerCase (email customerMixedCase) = customerEmail invoiceWithPdf
  /\ status (fst (route sampleIsEmail Detail env2
                    (request customerMixedCase "uuid-1" noValues None) storeWithPdf)) = 403
  /\ status (fst (route sampleIsEmail Download env2
                    (request customerMixedCase "uuid-1" noValues None) storeWithPdf)) = 403
  /\ status (fst (route sampleIsEmail View env2
                    (request customerMixedCase "uuid-1" noValues None) storeWithPdf)) = 403.
Proof.
  split; [reflexivity|]. split; [discriminate|].
  repeat split; reflexivity.
Qed.

Lemma create_response_carries_pdfData_witness :
  file (request admin EmptyString (newInvoiceBody "inv-001" "a@x.com") (Some samplePdf))
  = Some samplePdf
  /\ status (fst (route sampleIsEmail Create env1
                    (request admin EmptyString (newInvoiceBody "inv-001" "a@x.com")
                       (Some samplePdf)) [])) = 201
  /\ exists j,
       payload (fst (route sampleIsEmail Create env1
                       (request admin EmptyString (newInvoiceBody "inv-001" "a@x.com")
                          (Some samplePdf)) []))
       = WithInvoice (Some "Invoice created") j
       /\ pdfData j = JsonBuffer (buffer samplePdf).
Proof.
  split; [reflexivity|]. split; [reflexivity|].
  apply (proj2 (proj2 (proj2 (proj2 (proj2 (proj2
           (create_response_carries_pdfData sampleIsEmail env1
              (request admin EmptyString (newInvoiceBody "inv-001" "a@x.com")
                 (Some samplePdf)) [])))))) samplePdf); reflexivity.
Defined.

Lemma two_tier_gating_witness :
  adminOnly Delete = true
  /\ role customerA <> "admin"
  /\ findByPk "uuid-1" storePlain = Some invoicePlain
  /\ email customerA = customerEmail invoicePlain
  /\ status (fst (route sampleIsEmail Delete env2
                    (request customerA "uuid-1" noValues None) storePlain)) = 403
  /\ snd (route sampleIsEmail Delete env2
            (request customerA "uuid-1" noValues None) storePlain) = storePlain.
Proof.
  split; [reflexivity|]. split; [discriminate|].
  split; [reflexivity|]. split; [reflexivity|].
  apply (proj1 (proj1 (two_tier_gating sampleIsEmail Delete env2
                         (request customerA "uuid-1" noValues None) storePlain)
                  eq_refl)).
  simpl. discriminate.
Defined.

Lemma attachment_shape_reachable_witness :
  reachablePlain sampleIsEmail [otherPdf; samplePdf] storeReplaced
  /\ Forall (attachmentShape [otherPdf; samplePdf]) storeReplaced
  /\ exists r, findByPk "uuid-1" storeReplaced = Some r
               /\ attachmentOf r = attachmentOfUpload otherPdf.
Proof.
  assert (reachablePlain sampleIsEmail [otherPdf; samplePdf] storeReplaced) as H.
  { refine (@reach_step sampleIsEmail [samplePdf] storeWithPdf Update env2
              (request admin "uuid-1" noValues (Some otherPdf)) _ _).
    - refine (@reach_step sampleIsEmail [] [] Create env1
                (request admin EmptyString (newInvoiceBody "inv-001" "a@x.com")
                   (Some samplePdf)) _ _).
      + apply reach_empty.
      + discriminate.
    - intros _. repeat split. }
  split; [exact H|]. split; [exact (attachment_shape_reachable H)|].
  eexists. split; reflexivity.
Defined.

(** C4 as stated fails: an invoice created without an upload has its
    [pdfMimeType] set, by the default of the column, while [pdfData],
    [pdfFileName] and [pdfSize] are unset; and an update whose body names
    [pdfFileName] then sets the file name next to no bytes. *)
Lemma partial_attachment_observable :
  storePlain = [invoicePlain]
  /\ pdfMimeType invoicePlain = Some "application/pdf"
  /\ pdfData invoicePlain = None
  /\ pdfFileName invoicePlain = None
  /\ pdfSize invoicePlain = None
  /\ exists r',
       findByPk "uuid-1"
         (snd (route sampleIsEmail Update env2
                 (request admin "uuid-1" renameBody None) storePlain)) = Some r'
       /\ pdfFileName r' = Some "other.pdf"
       /\ pdfData r' = None.
Proof.
  do 5 (split; [reflexivity|]). eexists. repeat split; reflexivity.
Qed.

Lemma storeTwo_rows : storeTwo = [invoiceWithPdf; invoiceSecond].
Proof. reflexivity. Qed.

Lemma invoiceNumber_normalized_and_unique_witness :
  (toUpperCase (trim "inv-001") = toUpperCase (trim "INV-001 ")
   /\ Invoice_create sampleIsEmail env1
        (invoiceData env1 (request admin EmptyString (newInvoiceBody "inv-001" "a@x.com") None))
        [] = (inr invoicePlain, [invoicePlain])
   /\ sampleIsEmail (set_customerEmail "b@x.com") = true
   /\ Invoice_create sampleIsEmail env2 (newInvoiceBody "INV-001 " "b@x.com") [invoicePlain]
      = (inl DuplicateKey, [invoicePlain]))
  /\ (findByPk "uuid-1" storeTwo = Some invoiceWithPdf
      /\ v_invoiceNumber freeNumberBody = Some " inv-003 "
      /\ toUpperCase (trim " inv-003 ") = "INV-003"
      /\ status (fst (route sampleIsEmail Update env3
                        (request admin "uuid-1" freeNumberBody None) storeTwo)) = 200
      /\ exists r',
           findByPk "uuid-1"
             (snd (route sampleIsEmail Update env3
                     (request admin "uuid-1" freeNumberBody None) storeTwo)) = Some r'
           /\ invoiceNumber r' = toUpperCase (trim " inv-003 ")).
Proof.
  split.
  - split; [reflexivity|]. split; [reflexivity|]. split; [reflexivity|].
    refine (proj1 (proj2 (proj2 (proj2 (proj2 (proj2
                     (invoiceNumber_normalized_and_unique sampleIsEmail)))))
                     env1
                     (invoiceData env1
                        (request admin EmptyString (newInvoiceBody "inv-001" "a@x.com") None))
                     [] invoicePlain [invoicePlain] env2
                     (newInvoiceBody "INV-001 " "b@x.com")
                     "inv-001" "INV-001 " "b@x.com" 1735689600000%Z
                     _ _ _ _ _ _ _)); reflexivity.
  - split; [reflexivity|]. split; [reflexivity|]. split; [reflexivity|].
    refine (proj1 (proj2 (proj2 (proj2 (proj2
                     (invoiceNumber_normalized_and_unique sampleIsEmail)))))
              env3 (request admin "uuid-1" freeNumberBody None) storeTwo
              invoiceWithPdf " inv-003 " _ _ _ _ _ _ _ _); try reflexivity.
    + rewrite storeTwo_rows. simpl.
      constructor; [intros [H|[]]; discriminate H|].
      constructor; [intros [] | constructor].
    + intros e H. discriminate H.
    + intros o Ho Hid. rewrite storeTwo_rows in Ho.
      destruct Ho as [<-|[<-|[]]]; [now destruct Hid | discriminate].
Defined.

Lemma customerEmail_roundtrip_witness :
  (status (fst (route sampleIsEmail Create env1
                  (request admin EmptyString (newInvoiceBody "A-1" " User@Example.COM ") None)
                  [])) = 201
   /\ toLowerCase (trim " User@Example.COM ") = "user@example.com"
   /\ exists j,
        fst (route sampleIsEmail Detail env2 (request admin "uuid-1" noValues None)
               (snd (route sampleIsEmail Create env1
                       (request admin EmptyString (newInvoiceBody "A-1" " User@Example.COM ")
                          None) [])))
        = mkResponse 200 (WithInvoice None j)
        /\ customerEmail j = toLowerCase (trim " User@Example.COM "))
  /\ (findByPk "uuid-1" storeWithPdf = Some invoiceWithPdf
      /\ customerEmail invoiceWithPdf = "a@x.com"
      /\ v_customerEmail paidBody = Some " User@Example.COM "
      /\ status (fst (route sampleIsEmail Update env2
                        (request admin "uuid-1" paidBody None) storeWithPdf)) = 200
      /\ exists j,
           fst (route sampleIsEmail Detail env3 (request admin "uuid-1" noValues None)
                  (snd (route sampleIsEmail Update env2
                          (request admin "uuid-1" paidBody None) storeWithPdf)))
           = mkResponse 200 (WithInvoice None j)
           /\ customerEmail j = toLowerCase (trim " User@Example.COM ")).
Proof.
  split.
  - split; [reflexivity|]. split; [reflexivity|].
    apply (proj1 (proj2 (proj2 (customerEmail_roundtrip sampleIsEmail))) env1
             (request admin EmptyString (newInvoiceBody "A-1" " User@Example.COM ") None)
             [] " User@Example.COM " env2 (request admin "uuid-1" noValues None));
      reflexivity.
  - split; [reflexivity|]. split; [reflexivity|]. split; [reflexivity|].
    refine (proj2 (proj2 (proj2 (proj2 (customerEmail_roundtrip sampleIsEmail))))
              env2 (request admin "uuid-1" paidBody None) storeWithPdf
              invoiceWithPdf " User@Example.COM " env3
              (request admin "uuid-1" noValues None) _ _ _ _ _ _ _ _ _ _);
      try reflexivity.
    + change storeWithPdf with (snd (route sampleIsEmail Create env1
             (request admin EmptyString (newInvoiceBody "inv-001" "a@x.com")
                (Some samplePdf)) [])).
      simpl. constructor; [intros [] | constructor].
    + intros n H. discriminate H.
Defined.

Lemma search_compares_verbatim_witness :
  storePlain = [invoicePlain]
  /\ toUpperCase (trim "inv-001") <> "inv-001"
  /\ findOne_invoiceNumber "inv-001" [] = None
  /\ route sampleIsEmail Search env2 (request customerA "inv-001" noValues None) [invoicePlain]
     = (mkResponse 404 (Message "Invoice not found"), [invoicePlain])
  /\ In invoicePlain [invoicePlain]
  /\ forall req', params_invoiceNumber req' = toUpperCase (trim "inv-001") ->
       route sampleIsEmail Search env2 req' [invoicePlain]
       = (mkResponse 200 (WithInvoice None (excludePdfData invoicePlain)), [invoicePlain]).
Proof.
  split; [reflexivity|]. split; [discriminate|]. split; [reflexivity|].
  apply (proj2 (search_compares_verbatim sampleIsEmail) env1
           (invoiceData env1 (request admin EmptyString (newInvoiceBody "inv-001" "a@x.com") None))
           [] invoicePlain [invoicePlain] "inv-001" env2
           (request customerA "inv-001" noValues None));
    (reflexivity || discriminate).
Defined.

Lemma update_with_file_replaces_attachment_witness :
  file (request admin "uuid-1" noValues (Some otherPdf)) = Some otherPdf
  /\ status (fst (route sampleIsEmail Update env2
                    (request admin "uuid-1" noValues (Some otherPdf)) storeWithPdf)) = 200
  /\ exists r',
       findByPk "uuid-1"
         (snd (route sampleIsEmail Update env2
                 (request admin "uuid-1" noValues (Some otherPdf)) storeWithPdf)) = Some r'
       /\ pdfData r' = Some (buffer otherPdf)
       /\ pdfFileName r' = Some (originalname otherPdf)
       /\ pdfMimeType r' = Some (mimetype otherPdf)
       /\ pdfSize r' = Some (size otherPdf).
Proof.
  split; [reflexivity|]. split; [reflexivity|].
  apply (proj1 (proj2 (update_with_file_replaces_attachment sampleIsEmail env2
                         (request admin "uuid-1" noValues (Some otherPdf)) storeWithPdf
                         (f:=otherPdf) eq_refl))).
  reflexivity.
Defined.

Lemma update_without_file_keeps_attachment_witness :
  file (request admin "uuid-1" paidBody None) = None
  /\ namesNoAttachment (body (request admin "uuid-1" paidBody None))
  /\ status (fst (route sampleIsEmail Update env2
                    (request admin "uuid-1" paidBody None) storeWithPdf)) = 200
  /\ map attachmentOf
       (snd (route sampleIsEmail Update env2 (request admin "uuid-1" paidBody None) storeWithPdf))
     = map attachmentOf storeWithPdf.
Proof.
  split; [reflexivity|]. split; [repeat split|]. split; [reflexivity|].
  apply (proj1 (update_without_file_keeps_attachment sampleIsEmail env2
                  (request admin "uuid-1" paidBody None) storeWithPdf
                  eq_refl (conj eq_refl (conj eq_refl (conj eq_refl eq_refl))))).
Defined.

(** C6 as stated fails: an update that brings no file, but whose body names
    [pdfFileName], is answered 200 and changes the file name of the stored
    attachment. *)
Lemma update_body_renames_attachment :
  file (request admin "uuid-1" renameBody None) = None
  /\ findByPk "uuid-1" storeWithPdf = Some invoiceWithPdf
  /\ pdfFileName invoiceWithPdf = Some "march.pdf"
  /\ status (fst (route sampleIsEmail Update env2
                    (request admin "uuid-1" renameBody None) storeWithPdf)) = 200
  /\ exists r',
       findByPk "uuid-1"
         (snd (route sampleIsEmail Update env2
                 (request admin "uuid-1" renameBody None) storeWithPdf)) = Some r'
       /\ pdfFileName r' = Some "other.pdf"
       /\ pdfData r' = pdfData invoiceWithPdf.
Proof.
  split; [reflexivity|]. split; [reflexivity|]. split; [reflexivity|].
  split; [reflexivity|]. eexists. split; [reflexivity|]. split; reflexivity.
Qed.


(** * Further properties of the model and of the router *)

(** ** The two setters *)

Lemma upperChar_idem (c : ascii) : upperChar (upperChar c) = upperChar c.
Proof. destruct c as [[] [] [] [] [] [] [] []]; reflexivity. Qed.

Lemma lowerChar_idem (c : ascii) : lowerChar (lowerChar c) = lowerChar c.
Proof. destruct c as [[] [] [] [] [] [] [] []]; reflexivity. Qed.

Lemma isLower_upperChar (c : ascii) : negb (isLower (upperChar c)) = true.
Proof. destruct c as [[] [] [] [] [] [] [] []]; reflexivity. Qed.

Lemma isUpper_lowerChar (c : ascii) : negb (isUpper (lowerChar c)) = true.
Proof. destruct c as [[] [] [] [] [] [] [] []]; reflexivity. Qed.

Lemma mapChars_idem (f : ascii -> ascii) (s : string) :
  (forall c, f (f c) = f c) -> mapChars f (mapChars f s) = mapChars f s.
Proof. intros H. induction s as [|c s IH]; simpl; [reflexivity|]. now rewrite H, IH. Qed.

Lemma allChars_mapChars (p : ascii -> bool) (f : ascii -> ascii) (s : string) :
  (forall c, p (f c) = true) -> allChars p (mapChars f s) = true.
Proof. intros H. induction s as [|c s IH]; simpl; [reflexivity|]. now rewrite H, IH. Qed.

Lemma firstChar_mapChars (f : ascii -> ascii) (s : string) :
  firstChar (mapChars f s) = option_map f (firstChar s).
Proof. now destruct s. Qed.

Lemma lastChar_mapChars (f : ascii -> ascii) (s : string) :
  lastChar (mapChars f s) = option_map f (lastChar s).
Proof.
  induction s as [|c s IH]; simpl; [reflexivity|].
  rewrite IH. now destruct (lastChar s).
Qed.

Lemma lastChar_none (s : string) : lastChar s = None -> s = EmptyString.
Proof.
  destruct s as [|c s]; simpl; [reflexivity|]. now destruct (lastChar s).
Qed.

Lemma firstChar_trimStart (s : string) (c : ascii) :
  firstChar (trimStart s) = Some c -> isWhiteSpace c = false.
Proof.
  induction s as [|x s IH]; simpl; [discriminate|].
  destruct (isWhiteSpace x) eqn:Hx; [exact IH|].
  simpl. now intros [= <-].
Qed.

Lemma trimStart_fixed (s : string) :
  (forall c, firstChar s = Some c -> isWhiteSpace c = false) -> trimStart s = s.
Proof.
  destruct s as [|x s]; simpl; [reflexivity|].
  intros H. now rewrite (H x eq_refl).
Qed.

Lemma firstChar_trimEnd (s : string) (c : ascii) :
  firstChar (trimEnd s) = Some c -> firstChar s = Some c.
Proof.
  destruct s as [|x s]; simpl; [discriminate|].
  destruct (trimEnd s); [destruct (isWhiteSpace x); [discriminate|]|]; simpl; auto.
Qed.

Lemma lastChar_trimEnd (s : string) (c : ascii) :
  lastChar (trimEnd s) = Some c -> isWhiteSpace c = false.
Proof.
  induction s as [|x s IH]; simpl; [discriminate|].
  destruct (trimEnd s) as [|y t] eqn:Ht.
  - destruct (isWhiteSpace x) eqn:Hx; simpl; [discriminate|]. now intros [= <-].
  - change (lastChar (String x (String y t))) with
      (match lastChar (String y t) with Some d => Some d | None => Some x end).
    destruct (lastChar (String y t)) as [d|] eqn:Hl.
    + intros [= <-]. now apply IH.
    + apply lastChar_none in Hl. discriminate.
Qed.

Lemma trimEnd_fixed (s : string) :
  (forall c, lastChar s = Some c -> isWhiteSpace c = false) -> trimEnd s = s.
Proof.
  induction s as [|x s IH]; simpl; [reflexivity|].
  destruct (lastChar s) as [d|] eqn:Hl; intros H.
  - rewrite IH; [|intros c [= <-]; now apply H].
    destruct s; [discriminate Hl | reflexivity].
  - apply lastChar_none in Hl. subst s. simpl. now rewrite (H x eq_refl).
Qed.

Lemma cleanEnds_trim (s : string) : cleanEnds (trim s).
Proof.
  unfold cleanEnds, trim. split; intros c Hc.
  - apply firstChar_trimEnd in Hc. exact (firstChar_trimStart s Hc).
  - exact (lastChar_trimEnd _ Hc).
Qed.

Lemma trim_fixed (s : string) : cleanEnds s -> trim s = s.
Proof.
  intros [Hfirst Hlast]. unfold trim.
  rewrite (trimStart_fixed s Hfirst). now apply trimEnd_fixed.
Qed.

Lemma trim_idem (s : string) : trim (trim s) = trim s.
Proof. apply trim_fixed, cleanEnds_trim. Qed.

Lemma cleanEnds_mapChars (f : ascii -> ascii) (s : string) :
  (forall c, isWhiteSpace (f c) = isWhiteSpace c) ->
  cleanEnds s -> cleanEnds (mapChars f s).
Proof.
  intros Hf [Hfirst Hlast]. split; intros c.
  - rewrite firstChar_mapChars. destruct (firstChar s) as [d|]; [|discriminate].
    intros [= <-]. rewrite Hf. now apply Hfirst.
  - rewrite lastChar_mapChars. destruct (lastChar s) as [d|]; [|discriminate].
    intros [= <-]. rewrite Hf. now apply Hlast.
Qed.

Lemma set_customerEmail_alt (s : string) : set_customerEmail s = toLowerCase (trim s).
Proof. apply trim_toLowerCase. Qed.

Lemma set_invoiceNumber_idem (s : string) :
  set_invoiceNumber (set_invoiceNumber s) = set_invoiceNumber s.
Proof.
  unfold set_invoiceNumber. rewrite trim_toUpperCase, trim_idem.
  apply mapChars_idem, upperChar_idem.
Qed.

Lemma set_customerEmail_idem (s : string) :
  set_customerEmail (set_customerEmail s) = set_customerEmail s.
Proof.
  rewrite !set_customerEmail_alt. rewrite trim_toLowerCase, trim_idem.
  apply mapChars_idem, lowerChar_idem.
Qed.

(** X1: both setters are idempotent, and each leaves alone exactly the
    strings that are already in its normal form: writing back a value that
    was read from the table stores the same value again. *)
Theorem setters_idempotent (s : string) :
  set_invoiceNumber (set_invoiceNumber s) = set_invoiceNumber s
  /\ set_customerEmail (set_customerEmail s) = set_customerEmail s
  /\ (set_invoiceNumber s = s <-> trim s = s /\ toUpperCase s = s)
  /\ (set_customerEmail s = s <-> trim s = s /\ toLowerCase s = s).
Proof.
  split; [apply set_invoiceNumber_idem|].
  split; [apply set_customerEmail_idem|]. split.
  - split.
    + intros H. assert (trim s = s) as Ht.
      { rewrite <- H at 1. unfold set_invoiceNumber.
        rewrite trim_toUpperCase, trim_idem. exact H. }
      split; [exact Ht|]. unfold set_invoiceNumber in H. now rewrite Ht in H.
    + intros [Ht Hu]. unfold set_invoiceNumber. now rewrite Ht.
  - split.
    + intros H. assert (trim s = s) as Ht.
      { rewrite <- H at 1. unfold set_customerEmail. rewrite trim_idem. exact H. }
      split; [exact Ht|]. rewrite set_customerEmail_alt in H. now rewrite Ht in H.
    + intros [Ht Hu]. rewrite set_customerEmail_alt. now rewrite Ht.
Qed.

(** X2: what the setters store has no white space at either end; a stored
    invoice number has no lower-case letter and a stored email no upper-case
    letter. *)
Theorem setters_normal_form (s : string) :
  cleanEnds (set_invoiceNumber s)
  /\ allChars (fun c => negb (isLower c)) (set_invoiceNumber s) = true
  /\ cleanEnds (set_customerEmail s)
  /\ allChars (fun c => negb (isUpper c)) (set_customerEmail s) = true.
Proof.
  split; [|split; [|split]].
  - apply cleanEnds_mapChars; [apply isWhiteSpace_upperChar | apply cleanEnds_trim].
  - apply allChars_mapChars, isLower_upperChar.
  - apply cleanEnds_trim.
  - rewrite set_customerEmail_alt. apply allChars_mapChars, isUpper_lowerChar.
Qed.

(** ** Invariants of the table *)

Lemma NoDup_map_snoc (A B : Type) (f : A -> B) (l : list A) (a : A) :
  NoDup (map f l) -> (forall o, In o l -> f o <> f a) -> NoDup (map f (l ++ [a])).
Proof.
  intros Hl Ha. rewrite map_app. apply NoDup_app; [exact Hl | |].
  - simpl. constructor; [intros [] | constructor].
  - intros b Hb [<-|[]]. apply in_map_iff in Hb. destruct Hb as (o & Ho & Hin).
    exact (Ha o Hin Ho).
Qed.

Lemma NoDup_map_filter (B : Type) (key : Invoice -> B) (keep : Invoice -> bool)
    (db : Store) :
  NoDup (map key db) -> NoDup (map key (filter keep db)).
Proof.
  intros Hnd. induction db as [|r db IH]; simpl; [constructor|].
  simpl in Hnd. apply NoDup_cons_iff in Hnd. destruct Hnd as [Hfresh Hrest].
  destruct (keep r); simpl; [|now apply IH].
  apply NoDup_cons_iff. split; [|now apply IH].
  intros Hin. apply Hfresh. apply in_map_iff in Hin. destruct Hin as (o & Ho & Hin).
  apply filter_In in Hin. apply in_map_iff. exists o. tauto.
Qed.

Section RewriteOne.

Variables (B : Type) (f : Invoice -> B) (p : Invoice -> bool) (g : Invoice -> Invoice).

Let rewrittenBy (l : list Invoice) : list Invoice :=
  map (fun r => if p r then g r else r) l.

Lemma rewrittenBy_none (l : list Invoice) :
  filter p l = [] -> rewrittenBy l = l.
Proof.
  induction l as [|a l IH]; simpl; [reflexivity|].
  destruct (p a); [discriminate|]. intros H. now rewrite IH.
Qed.

Lemma map_rewrittenBy_same (l : list Invoice) :
  (forall x, p x = true -> f (g x) = f x) -> map f (rewrittenBy l) = map f l.
Proof.
  intros H. induction l as [|a l IH]; simpl; [reflexivity|].
  rewrite IH. destruct (p a) eqn:Hp; [now rewrite H | reflexivity].
Qed.

(** One row takes a value of [f] that no other row has. *)
Lemma NoDup_map_rewrittenBy (nv : B) (l : list Invoice) :
  length (filter p l) = 1 ->
  NoDup (map f l) ->
  (forall o, In o l -> p o = false -> f o <> nv) ->
  (forall x, p x = true -> f (g x) = nv) ->
  NoDup (map f (rewrittenBy l)).
Proof.
  intros Hone Hnd Hfresh Hg. induction l as [|a l IH]; simpl; [constructor|].
  simpl in Hone. inversion Hnd as [|? ? Hnotin Hrest]; subst.
  destruct (p a) eqn:Hp.
  - assert (filter p l = []) as Hnone.
    { simpl in Hone. destruct (filter p l); [reflexivity | discriminate]. }
    rewrite Hg by exact Hp.
    change (map (fun r => if p r then g r else r) l) with (rewrittenBy l).
    rewrite (rewrittenBy_none l Hnone).
    constructor; [|exact Hrest].
    intros Hin. apply in_map_iff in Hin. destruct Hin as (o & Ho & Hin).
    apply (Hfresh o (or_intror Hin)); [|exact Ho].
    destruct (p o) eqn:Hpo; [|reflexivity].
    assert (In o (filter p l)) as Hf by (apply filter_In; auto).
    now rewrite Hnone in Hf.
  - constructor.
    + intros Hin. apply in_map_iff in Hin. destruct Hin as (o' & Ho' & Hin').
      apply in_map_iff in Hin'. destruct Hin' as (o & <- & Hin).
      destruct (p o) eqn:Hpo.
      * rewrite Hg in Ho' by exact Hpo.
        exact (Hfresh a (or_introl eq_refl) Hp (eq_sym Ho')).
      * apply Hnotin. apply in_map_iff. now exists o.
    + apply IH; auto. intros o Ho. apply Hfresh. now right.
Qed.

End RewriteOne.

Section Invariants.

Variable isEmail : string -> bool.

Lemma Invoice_update_unchanged env v pk db res db' :
  Invoice_update isEmail env v pk db = (res, db') ->
  (forall n, res <> inr (S n)) -> db' = db.
Proof.
  unfold Invoice_update.
  destruct (negb _); [now intros [= _ <-]|].
  destruct (namesNoColumn v); [now intros [= _ <-]|].
  destruct (filter (hasId pk) db) as [|m rest]; [now intros [= _ <-]|].
  cbv zeta. destruct (_ || _); [now intros [= _ <-]|].
  intros [= <- _] H. now destruct (H (length rest)).
Qed.

(** All that a successful update has checked. *)
Lemma Invoice_update_success env v pk db n db' :
  Invoice_update isEmail env v pk db = (inr (S n), db') ->
  db' = map (fun r => if hasId pk r then applyValues env v r else r) db
  /\ S n = length (filter (hasId pk) db)
  /\ (forall e, v_customerEmail v = Some e -> isEmail (set_customerEmail e) = true)
  /\ (forall i, v_id v = Some i ->
        n = 0 /\ forall o, In o db -> hasId pk o = false -> id o <> i)
  /\ (forall num, v_invoiceNumber v = Some num ->
        n = 0 /\ forall o, In o db -> hasId pk o = false ->
                  invoiceNumber o <> set_invoiceNumber num).
Proof.
  unfold Invoice_update.
  destruct (negb _) eqn:Hmail; [discriminate|].
  destruct (namesNoColumn v) eqn:Hnames; [discriminate|].
  destruct (filter (hasId pk) db) as [|m rest] eqn:Hm; [discriminate|].
  cbv zeta. destruct (_ || _) eqn:Hclash; [discriminate|].
  intros H. injection H as Hn <-.
  assert (n = length rest) as -> by (simpl in Hn; congruence).
  apply orb_false_iff in Hclash. destruct Hclash as [Hid Hnum].
  split; [reflexivity|]. split; [reflexivity|]. split; [|split].
  - intros e He. rewrite He in Hmail. now apply negb_false_iff in Hmail.
  - intros i Hi. rewrite Hi in Hid. apply orb_false_iff in Hid.
    destruct Hid as [Hex Hrest]. split.
    + apply negb_false_iff in Hrest. now apply Nat.eqb_eq in Hrest.
    + intros o Ho Hpk. apply String.eqb_neq.
      apply (existsb_false_inv _ _ Hex o). apply filter_In. now rewrite Hpk.
  - intros num Hnm. rewrite Hnm in Hnum. apply orb_false_iff in Hnum.
    destruct Hnum as [Hex Hrest]. split.
    + apply negb_false_iff in Hrest. now apply Nat.eqb_eq in Hrest.
    + intros o Ho Hpk. apply String.eqb_neq.
      apply (existsb_false_inv _ _ Hex o). apply filter_In. now rewrite Hpk.
Qed.

Lemma createInvoice_cases env req db :
  snd (createInvoice isEmail env req db) = db
  \/ exists r, Invoice_create isEmail env (invoiceData env req) db
               = (inr r, snd (createInvoice isEmail env req db)).
Proof.
  unfold createInvoice. destruct (negb _); [now left|].
  destruct (Invoice_create _ _ _ _) as [[t|invoice] db'] eqn:Hc; simpl.
  - left. now apply Invoice_create_inl in Hc.
  - right. now exists invoice.
Qed.

Lemma updateInvoice_cases env req db :
  snd (updateInvoice isEmail env req db) = db
  \/ exists n, Invoice_update isEmail env (updates req) (params_id req) db
               = (inr (S n), snd (updateInvoice isEmail env req db)).
Proof.
  unfold updateInvoice. destruct (negb _); [now left|].
  destruct (Invoice_update _ _ _ _ _) as [[t|[|n]] db'] eqn:Hu; simpl.
  - left. apply (Invoice_update_unchanged _ _ _ _ Hu). discriminate.
  - left. apply (Invoice_update_unchanged _ _ _ _ Hu). discriminate.
  - right. exists n. now destruct (findByPk _ db').
Qed.

(** What a call to the router can do to the table. *)
Lemma route_cases op env req db :
  snd (route isEmail op env req db) = db
  \/ (op = Create /\
      exists r, Invoice_create isEmail env (invoiceData env req) db
                = (inr r, snd (route isEmail op env req db)))
  \/ (op = Update /\
      exists n, Invoice_update isEmail env (updates req) (params_id req) db
                = (inr (S n), snd (route isEmail op env req db)))
  \/ (op = Delete /\
      snd (route isEmail op env req db)
      = filter (fun r => negb (hasId (params_id req) r)) db).
Proof.
  destruct (adminOnly op) eqn:Hop; [|left; now apply read_store].
  destruct op; try discriminate Hop; simpl.
  - destruct (guarded_store requireAdmin (createInvoice isEmail) env req db) as [->| ->];
      [now left|].
    destruct (createInvoice_cases env req db) as [H|H]; [now left|].
    right. left. now split.
  - destruct (guarded_store requireAdmin (updateInvoice isEmail) env req db) as [->| ->];
      [now left|].
    destruct (updateInvoice_cases env req db) as [H|H]; [now left|].
    right. right. left. now split.
  - left. now destruct (guarded_store requireAdmin listAll env req db) as [->| ->].
  - destruct (guarded_store requireAdmin deleteInvoice env req db) as [->| ->];
      [now left|].
    right. right. right. split; [reflexivity|].
    unfold deleteInvoice, Invoice_destroy. now destruct (length _).
Qed.

Lemma reachable_unique db :
  reachable isEmail db ->
  NoDup (map (fun r : Invoice => id r) db)
  /\ NoDup (map (fun r : Invoice => invoiceNumber r) db).
Proof.
  induction 1 as [|db op env req Hreach [IHid IHnum]]; [split; constructor|].
  destruct (route_cases op env req db) as [->|[(_ & r & Hc)|[(_ & n & Hu)|(_ & ->)]]].
  - now split.
  - apply Invoice_create_inr in Hc.
    destruct Hc as (number & e & due & _ & _ & _ & _ & _ & Hfresh & ->).
    split; (apply NoDup_map_snoc; [assumption|]); intros o Ho;
      apply String.eqb_neq; now apply Hfresh.
  - apply Invoice_update_success in Hu.
    destruct Hu as (-> & Hlen & _ & Hid & Hnum). split.
    + destruct (v_id (updates req)) as [i|] eqn:Hi.
      * destruct (Hid i eq_refl) as [-> Hfresh].
        apply NoDup_map_rewrittenBy with (nv := i); auto.
        intros x _. simpl. now rewrite Hi.
      * rewrite map_rewrittenBy_same; [exact IHid|].
        intros x _. simpl. now rewrite Hi.
    + destruct (v_invoiceNumber (updates req)) as [num|] eqn:Hn.
      * destruct (Hnum num eq_refl) as [-> Hfresh].
        apply NoDup_map_rewrittenBy with (nv := set_invoiceNumber num); auto.
        intros x _. simpl. now rewrite Hn.
      * rewrite map_rewrittenBy_same; [exact IHnum|].
        intros x _. simpl. now rewrite Hn.
  - split; now apply NoDup_map_filter.
Qed.

Lemma reachable_normalized db :
  reachable isEmail db ->
  Forall (fun r : Invoice =>
            set_invoiceNumber (invoiceNumber r) = invoiceNumber r
            /\ set_customerEmail (customerEmail r) = customerEmail r
            /\ isEmail (customerEmail r) = true) db.
Proof.
  induction 1 as [|db op env req Hreach IH]; [constructor|].
  destruct (route_cases op env req db) as [->|[(_ & r & Hc)|[(_ & n & Hu)|(_ & ->)]]].
  - exact IH.
  - apply Invoice_create_inr in Hc.
    destruct Hc as (number & e & due & _ & _ & _ & -> & Hmail & _ & ->).
    apply Forall_app. split; [exact IH|]. constructor; [|constructor]. simpl.
    split; [apply set_invoiceNumber_idem|]. split; [apply set_customerEmail_idem|].
    exact Hmail.
  - apply Invoice_update_success in Hu. destruct Hu as (-> & _ & Hmail & _).
    apply Forall_forall. intros r' Hr'. apply in_map_iff in Hr'.
    destruct Hr' as (r & <- & Hr).
    pose proof (proj1 (Forall_forall _ db) IH r Hr) as (Hn & He & Hv).
    destruct (hasId _ r); [|now repeat split]. simpl.
    split; [|split].
    + destruct (v_invoiceNumber (updates req)); simpl;
        [apply set_invoiceNumber_idem | exact Hn].
    + destruct (v_customerEmail (updates req)); simpl;
        [apply set_customerEmail_idem | exact He].
    + destruct (v_customerEmail (updates req)) as [e|] eqn:Hce; simpl;
        [now apply Hmail | exact Hv].
  - now apply Forall_filter_keep.
Qed.

(** X3: in every table the router can reach from the empty one, whatever
    the requests, no two invoices share an id and no two share an invoice
    number. *)
Theorem keys_stay_unique db :
  reachable isEmail db ->
  NoDup (map (fun r : Invoice => id r) db)
  /\ NoDup (map (fun r : Invoice => invoiceNumber r) db).
Proof. apply reachable_unique. Qed.

(** X4: in every table the router can reach from the empty one, whatever
    the requests, each stored invoice number and each stored customer email
    is in the normal form of its setter, and each stored email passed
    [isEmail]. *)
Theorem stored_values_normalized db :
  reachable isEmail db ->
  Forall (fun r : Invoice =>
            set_invoiceNumber (invoiceNumber r) = invoiceNumber r
            /\ set_customerEmail (customerEmail r) = customerEmail r
            /\ isEmail (customerEmail r) = true) db.
Proof. apply reachable_normalized. Qed.

(** ** Deleting *)

Lemma filter_none (A : Type) (p : A -> bool) (l : list A) :
  (forall x, In x l -> p x = false) -> filter p l = [].
Proof.
  induction l as [|a l IH]; simpl; intros H; [reflexivity|].
  rewrite (H a (or_introl eq_refl)). apply IH. intros x Hx. apply H. now right.
Qed.

Lemma filter_all (A : Type) (p : A -> bool) (l : list A) :
  (forall x, In x l -> p x = true) -> filter p l = l.
Proof.
  induction l as [|a l IH]; simpl; intros H; [reflexivity|].
  rewrite (H a (or_introl eq_refl)). f_equal. apply IH. intros x Hx. apply H. now right.
Qed.

Lemma length_filter_zero (A : Type) (p : A -> bool) (l : list A) :
  length (filter p l) = 0 -> forall x, In x l -> p x = false.
Proof.
  intros H x Hx. destruct (p x) eqn:Hp; [|reflexivity].
  assert (In x (filter p l)) as Hin by (apply filter_In; auto).
  destruct (filter p l); [destruct Hin | discriminate].
Qed.

Lemma find_filter_compatible (A : Type) (p q : A -> bool) (l : list A) :
  (forall x, p x = true -> q x = true) -> find p (filter q l) = find p l.
Proof.
  intros H. induction l as [|a l IH]; simpl; [reflexivity|].
  destruct (q a) eqn:Hq; simpl.
  - now rewrite IH.
  - destruct (p a) eqn:Hp; [|exact IH]. rewrite (H a Hp) in Hq. discriminate.
Qed.

Lemma Invoice_destroy_missing pk db :
  findByPk pk db = None -> Invoice_destroy pk db = (0, db).
Proof.
  intros H. unfold Invoice_destroy.
  pose proof (proj1 (find_none_inv _ _) H) as Hall.
  rewrite (filter_none _ _ Hall). simpl. f_equal.
  apply filter_all. intros x Hx. now rewrite (Hall x Hx).
Qed.

Lemma Invoice_destroy_found pk db r :
  findByPk pk db = Some r ->
  exists n, fst (Invoice_destroy pk db) = S n.
Proof.
  intros H. unfold Invoice_destroy. simpl.
  destruct (find_some _ _ H) as [Hin Hhit].
  assert (In r (filter (hasId pk) db)) as Hf by (apply filter_In; auto).
  destruct (filter (hasId pk) db); [destruct Hf | now eexists].
Qed.

(** X5: for an admin, deleting an id that no invoice has answers 404 and
    leaves the table as it is; deleting the id of an invoice answers 200,
    after which that id is not found any more (a detail-fetch answers 404),
    while every other invoice is still found under its id, the remaining
    rows keeping their order. *)
Theorem delete_removes_invoice env req db :
  role (user req) = "admin" ->
  (findByPk (params_id req) db = None ->
     route isEmail Delete env req db = (mkResponse 404 (Message "Invoice not found"), db))
  /\ (forall r, findByPk (params_id req) db = Some r ->
        fst (route isEmail Delete env req db)
        = mkResponse 200 (Message "Invoice deleted successfully")
        /\ snd (route isEmail Delete env req db)
           = filter (fun o => negb (String.eqb (id o) (params_id req))) db
        /\ findByPk (params_id req) (snd (route isEmail Delete env req db)) = None
        /\ (forall env' req',
              params_id req' = params_id req ->
              fst (route isEmail Detail env' req' (snd (route isEmail Delete env req db)))
              = mkResponse 404 (Message "Invoice not found"))
        /\ (forall pk, pk <> params_id req ->
              findByPk pk (snd (route isEmail Delete env req db)) = findByPk pk db)).
Proof.
  intros Hrole. simpl. unfold guarded, requireAdmin. rewrite Hrole. simpl.
  unfold deleteInvoice. split.
  - intros Hnone. now rewrite (Invoice_destroy_missing _ _ Hnone).
  - intros r Hr. destruct (Invoice_destroy_found _ _ Hr) as [n Hn].
    destruct (Invoice_destroy (params_id req) db) as [k db'] eqn:Hd.
    simpl in Hn. subst k. simpl.
    assert (db' = filter (fun o => negb (hasId (params_id req) o)) db) as ->
        by (unfold Invoice_destroy in Hd; now injection Hd as _ <-).
    assert (findByPk (params_id req)
              (filter (fun o => negb (hasId (params_id req) o)) db) = None) as Hgone.
    { apply find_none_inv. intros x Hx. apply filter_In in Hx.
      destruct Hx as [_ Hx]. now apply negb_true_iff in Hx. }
    split; [reflexivity|]. split; [reflexivity|]. split; [exact Hgone|]. split.
    + intros env' req' Hid. unfold getInvoiceDetail. now rewrite Hid, Hgone.
    + intros pk Hpk. unfold findByPk. apply find_filter_compatible.
      intros x Hx. unfold hasId in *. apply String.eqb_eq in Hx.
      apply negb_true_iff, String.eqb_neq. congruence.
Qed.

(** ** Failures and the table *)

Lemma updateInvoice_lost env req db :
  v_id (body req) = None ->
  status (fst (updateInvoice isEmail env req db)) <> 200 ->
  snd (updateInvoice isEmail env req db) = db.
Proof.
  intros Hid. unfold updateInvoice. destruct (negb _); [reflexivity|].
  destruct (Invoice_update _ _ _ _ _) as [[t|[|n]] db'] eqn:Hu; simpl.
  - intros _. apply (Invoice_update_unchanged _ _ _ _ Hu). discriminate.
  - intros _. apply (Invoice_update_unchanged _ _ _ _ Hu). discriminate.
  - pose proof (Invoice_update_readback _ _ _ _ _ Hu) as Hback.
    destruct (Invoice_update_hits _ _ _ _ _ Hu) as [r Hr].
    assert (v_id (updates req) = None) as Hnone
        by (unfold updates; destruct (file req); simpl; exact Hid).
    rewrite Hnone, Hr in Hback. simpl in Hback. rewrite Hback. simpl.
    intros H. now destruct H.
Qed.

(** X6: an answer that is neither 200 nor 201 means the table was left as it
    was: this holds for every operation and every request, provided the body
    of an update does not name the [id] column. *)
Theorem failures_leave_table op env req db :
  (op = Update -> v_id (body req) = None) ->
  status (fst (route isEmail op env req db)) <> 200 ->
  status (fst (route isEmail op env req db)) <> 201 ->
  snd (route isEmail op env req db) = db.
Proof.
  intros Hid H200 H201.
  destruct (adminOnly op) eqn:Hop; [|now apply read_store].
  destruct op; try discriminate Hop; simpl in *; unfold guarded in *;
    destruct (requireAdmin req); try reflexivity.
  - unfold createInvoice in *. destruct (negb _); [reflexivity|].
    destruct (Invoice_create _ _ _ _) as [[t|invoice] db'] eqn:Hc; simpl in *.
    + now apply Invoice_create_inl in Hc.
    + now destruct H201.
  - apply updateInvoice_lost; auto.
  - unfold deleteInvoice in *.
    destruct (Invoice_destroy _ _) as [[|n] db'] eqn:Hd; simpl in *.
    + unfold Invoice_destroy in Hd. injection Hd as Hlen <-.
      apply filter_all. intros x Hx.
      now rewrite (length_filter_zero _ _ Hlen x Hx).
    + now destruct H200.
Qed.

(** X7: the order in which an update is refused: a principal that is not an
    admin gets 403 whatever else is wrong; an admin whose request failed the
    validation chain gets 400 whether or not the invoice exists; then an
    email the model rejects gives 500, again whether or not the invoice
    exists; only then does an id that no invoice has give 404.  None of
    these changes the table. *)
Theorem update_refusals_in_order env req db :
  (role (user req) <> "admin" ->
     status (fst (route isEmail Update env req db)) = 403
     /\ snd (route isEmail Update env req db) = db)
  /\ (role (user req) = "admin" -> errors_isEmpty req = false ->
       route isEmail Update env req db = (mkResponse 400 Errors, db))
  /\ (role (user req) = "admin" -> errors_isEmpty req = true ->
       forall e, v_customerEmail (body req) = Some e ->
                 isEmail (set_customerEmail e) = false ->
                 route isEmail Update env req db = (mkResponse 500 (Message "Server error"), db))
  /\ (role (user req) = "admin" -> errors_isEmpty req = true ->
       (forall e, v_customerEmail (body req) = Some e ->
                  isEmail (set_customerEmail e) = true) ->
       findByPk (params_id req) db = None ->
       route isEmail Update env req db = (mkResponse 404 (Message "Invoice not found"), db)).
Proof.
  assert (Hmail : v_customerEmail (updates req) = v_customerEmail (body req))
    by (unfold updates; now destruct (file req)).
  split; [|split; [|split]].
  - intros Hrole. apply String.eqb_neq in Hrole.
    simpl. unfold guarded, requireAdmin. rewrite Hrole. simpl. auto.
  - intros Hrole Herr. simpl. unfold guarded, requireAdmin. rewrite Hrole. simpl.
    unfold updateInvoice. now rewrite Herr.
  - intros Hrole Herr e He Hbad. simpl. unfold guarded, requireAdmin. rewrite Hrole. simpl.
    unfold updateInvoice, Invoice_update. rewrite Herr, Hmail, He, Hbad. reflexivity.
  - intros Hrole Herr Hok Hnone. simpl. unfold guarded, requireAdmin. rewrite Hrole. simpl.
    unfold updateInvoice, Invoice_update. rewrite Herr, Hmail. simpl.
    replace (match v_customerEmail (body req) with
             | Some e => isEmail (set_customerEmail e)
             | None => true
             end) with true
      by (destruct (v_customerEmail (body req)) as [e|]; [symmetry; now apply Hok | reflexivity]).
    simpl. rewrite (filter_none _ _ (proj1 (find_none_inv _ _) Hnone)).
    now destruct (namesNoColumn (updates req)).
Qed.

(** X8: an admin's valid update that would give an invoice the number of
    another one (after normalisation) is answered 500 "Server error" and
    changes nothing. *)
Theorem update_number_collision env req db r o n :
  role (user req) = "admin" -> errors_isEmpty req = true ->
  findByPk (params_id req) db = Some r ->
  In o db -> id o <> params_id req ->
  v_invoiceNumber (body req) = Some n ->
  invoiceNumber o = toUpperCase (trim n) ->
  route isEmail Update env req db = (mkResponse 500 (Message "Server error"), db).
Proof.
  intros Hrole Herr Hr Ho Hother Hn Hsame.
  simpl. unfold guarded, requireAdmin. rewrite Hrole. simpl.
  unfold updateInvoice. rewrite Herr. simpl.
  assert (exists t, Invoice_update isEmail env (updates req) (params_id req) db = (inl t, db))
    as [t ->]; [|reflexivity].
  assert (v_invoiceNumber (updates req) = Some n) as Hn'
      by (unfold updates; destruct (file req); exact Hn).
  unfold Invoice_update. destruct (negb _); [now eexists|].
  rewrite (namesNoColumn_false (updates req)) by (left; rewrite Hn'; discriminate).
  destruct (filter (hasId (params_id req)) db) as [|m rest] eqn:Hm.
  { exfalso. destruct (find_some _ _ Hr) as [Hin Hhit].
    assert (In r (filter (hasId (params_id req)) db)) as Hf by (apply filter_In; auto).
    now rewrite Hm in Hf. }
  cbv zeta. rewrite Hn'.
  match goal with
  | |- context [existsb ?p ?l || ?b] =>
      assert (existsb p l = true) as ->
  end.
  { apply existsb_exists. exists o. split.
    - apply filter_In. split; [exact Ho|]. apply negb_true_iff, String.eqb_neq. exact Hother.
    - apply String.eqb_eq. exact Hsame. }
  simpl. rewrite orb_true_r. now eexists.
Qed.

(** X9: an update leaves every invoice with another id exactly as it was and
    where it was; the table keeps its length. *)
Theorem update_touches_one_id env req db :
  length (snd (route isEmail Update env req db)) = length db
  /\ Forall2 (fun r r' : Invoice => id r <> params_id req -> r' = r)
             db (snd (route isEmail Update env req db)).
Proof.
  simpl.
  destruct (guarded_store requireAdmin (updateInvoice isEmail) env req db) as [->| ->];
    [split; [reflexivity | apply Forall2_same; auto]|].
  destruct (updateInvoice_store isEmail env req db) as [->| ->];
    [split; [reflexivity | apply Forall2_same; auto]|].
  split; [apply length_map|].
  eapply Forall2_impl; [|apply rewritten_rows].
  intros r r' [->|[Hhit _]] Hid; [reflexivity|].
  unfold hasId in Hhit. apply String.eqb_eq in Hhit. now destruct Hid.
Qed.

(** ** Creating *)

Lemma invoiceData_fields env req :
  v_id (invoiceData env req) = None
  /\ v_invoiceNumber (invoiceData env req) = v_invoiceNumber (body req)
  /\ v_customerEmail (invoiceData env req) = v_customerEmail (body req)
  /\ v_dueDate (invoiceData env req) = v_dueDate (body req)
  /\ v_invoiceDate (invoiceData env req)
     = Some (orElse (v_invoiceDate (body req)) (env_newDate env))
  /\ v_paymentStatus (invoiceData env req)
     = Some (orElse (v_paymentStatus (body req)) Unpaid)
  /\ v_invoiceAmount (invoiceData env req) = v_invoiceAmount (body req)
  /\ v_pdfUrl (invoiceData env req) = None
  /\ v_createdAt (invoiceData env req) = None.
Proof. unfold invoiceData. destruct (file req); simpl; repeat split. Qed.

(** X10: the create route answers 201 exactly when the principal is an
    admin, the validation chain found nothing, the body has an invoice
    number, a customer email and a due date, the normalised email passes
    [isEmail], and no stored invoice has the fresh id or the normalised
    number. *)
Theorem create_succeeds_iff env req db :
  status (fst (route isEmail Create env req db)) = 201
  <-> role (user req) = "admin"
      /\ errors_isEmpty req = true
      /\ exists number e due,
           v_invoiceNumber (body req) = Some number
           /\ v_customerEmail (body req) = Some e
           /\ v_dueDate (body req) = Some due
           /\ isEmail (trim (toLowerCase e)) = true
           /\ forall o, In o db ->
                id o <> env_uuid env /\ invoiceNumber o <> toUpperCase (trim number).
Proof.
  destruct (invoiceData_fields env req) as (Ei & En & Ee & Ed & _).
  split.
  - simpl. unfold guarded, requireAdmin.
    destruct (String.eqb (role (user req)) "admin") eqn:Hrole; [|discriminate].
    apply String.eqb_eq in Hrole. unfold createInvoice.
    destruct (errors_isEmpty req); [|discriminate]. simpl.
    destruct (Invoice_create _ _ _ _) as [[t|invoice] db'] eqn:Hc; [discriminate|].
    intros _. apply Invoice_create_inr in Hc.
    destruct Hc as (number & e & due & Hn & He & Hd & -> & Hmail & Hfresh & _).
    rewrite En in Hn. rewrite Ee in He. rewrite Ed in Hd.
    split; [exact Hrole|]. split; [reflexivity|].
    exists number, e, due. repeat split; auto.
    + apply String.eqb_neq. generalize (proj1 (Hfresh o H)). simpl. now rewrite Ei.
    + apply String.eqb_neq. exact (proj2 (Hfresh o H)).
  - intros (Hrole & Herr & number & e & due & Hn & He & Hd & Hmail & Hfresh).
    simpl. unfold guarded, requireAdmin. rewrite Hrole. simpl.
    unfold createInvoice. rewrite Herr. simpl.
    unfold Invoice_create. rewrite En, Ee, Ed, Hn, He, Hd. cbv zeta.
    replace (isEmail (customerEmail (build env (invoiceData env req) number e due)))
      with true by (symmetry; exact Hmail).
    simpl negb. cbv iota.
    match goal with
    | |- context [existsb ?p db] => destruct (existsb p db) eqn:Hex
    end; [|reflexivity].
    exfalso. apply existsb_exists in Hex. destruct Hex as (o & Ho & Hclash).
    destruct (Hfresh o Ho) as [Hid Hnum].
    apply orb_true_iff in Hclash. destruct Hclash as [H|H]; apply String.eqb_eq in H.
    + simpl in H. rewrite Ei in H. now apply Hid.
    + now apply Hnum.
Qed.

(** X11: the invoice a create answered 201 has put in the table, last and
    found under the fresh id: the two normalised columns, the due date of the
    body, the date, status and amount of the body or else [new Date()],
    [Unpaid] and [0.00], no [pdfUrl], both timestamps at the time of the
    store, and as attachment the upload, or nothing but the default mime
    type. *)
Theorem created_invoice_fields env req db :
  status (fst (route isEmail Create env req db)) = 201 ->
  exists r number e due,
    v_invoiceNumber (body req) = Some number
    /\ v_customerEmail (body req) = Some e
    /\ v_dueDate (body req) = Some due
    /\ snd (route isEmail Create env req db) = db ++ [r]
    /\ findByPk (env_uuid env) (snd (route isEmail Create env req db)) = Some r
    /\ id r = env_uuid env
    /\ invoiceNumber r = toUpperCase (trim number)
    /\ customerEmail r = trim (toLowerCase e)
    /\ invoiceDate r = orElse (v_invoiceDate (body req)) (env_newDate env)
    /\ dueDate r = due
    /\ paymentStatus r = orElse (v_paymentStatus (body req)) Unpaid
    /\ invoiceAmount r = orElse (v_invoiceAmount (body req)) "0.00"
    /\ pdfUrl r = None
    /\ createdAt r = env_now env
    /\ updatedAt r = env_now env
    /\ attachmentOf r
       = match file req with
         | Some f => attachmentOfUpload f
         | None => (None, None, Some "application/pdf", None)
         end.
Proof.
  intros H201.
  destruct (route_create_201 isEmail env req db H201)
    as (number & e & due & Hn & He & Hd & Hroute & Hback).
  exists (build env (invoiceData env req) number e due), number, e, due.
  rewrite Hroute. simpl fst. simpl snd.
  split; [exact Hn|]. split; [exact He|]. split; [exact Hd|].
  split; [reflexivity|]. split; [exact Hback|].
  destruct (invoiceData_fields env req)
    as (Ei & _ & _ & _ & Edate & Est & Eam & Eurl & Ecr).
  simpl. rewrite Ei, Edate, Est, Eam, Eurl, Ecr. simpl.
  do 10 (split; [reflexivity|]).
  unfold attachmentOf, invoiceData. now destruct (file req).
Qed.

(** X12: the create route reads six fields of the body and nothing else:
    two requests that agree on them (and on principal, file and validation
    result) are answered alike and leave the same table, so a body cannot
    choose the id, the timestamps, [pdfUrl] or the attachment columns of a
    new invoice. *)
Theorem create_reads_six_fields env req db b :
  v_invoiceNumber b = v_invoiceNumber (body req) ->
  v_customerEmail b = v_customerEmail (body req) ->
  v_invoiceDate b = v_invoiceDate (body req) ->
  v_dueDate b = v_dueDate (body req) ->
  v_paymentStatus b = v_paymentStatus (body req) ->
  v_invoiceAmount b = v_invoiceAmount (body req) ->
  route isEmail Create env (withBody req b) db = route isEmail Create env req db.
Proof.
  intros Hn He Hdate Hdue Hst Ham.
  assert (invoiceData env (withBody req b) = invoiceData env req) as Hdata.
  { unfold invoiceData, invoiceFields. simpl. now rewrite Hn, He, Hdate, Hdue, Hst, Ham. }
  simpl. unfold guarded, requireAdmin, createInvoice. simpl. now rewrite Hdata.
Qed.

(** X13: what was uploaded comes back: after a create answered 201 with a
    file, take as content type the mime type of the upload (or
    [application/pdf] when it is empty) and as file name its original name
    (or [invoice-{NUMBER}.pdf] when it is empty).  A download or a view of
    the new id by an admin, or by the principal whose email is the
    normalised customer email, then delivers the bytes of the upload with
    that content type, that file name and their number as content length
    when both strings are fit for a header, and answers 500 "Server error"
    when one of them holds a character no header may carry. *)
Theorem upload_comes_back env req db f number e env' req' contentType name :
  file req = Some f ->
  v_invoiceNumber (body req) = Some number ->
  v_customerEmail (body req) = Some e ->
  status (fst (route isEmail Create env req db)) = 201 ->
  params_id req' = env_uuid env ->
  role (user req') = "admin" \/ email (user req') = trim (toLowerCase e) ->
  contentType
  = (if String.eqb (mimetype f) EmptyString then "application/pdf" else mimetype f) ->
  name
  = (if String.eqb (originalname f) EmptyString
     then ("invoice-" ++ toUpperCase (trim number) ++ ".pdf")%string
     else originalname f) ->
  (validHeaderValue contentType && validHeaderValue name = true ->
     fst (route isEmail Download env' req' (snd (route isEmail Create env req db)))
     = mkResponse 200
         (Pdf contentType ("attachment; filename=" ++ dquote ++ name ++ dquote)%string
              (Z.of_nat (length (buffer f))) (buffer f))
     /\ fst (route isEmail View env' req' (snd (route isEmail Create env req db)))
        = mkResponse 200
            (Pdf contentType ("inline; filename=" ++ dquote ++ name ++ dquote)%string
                 (Z.of_nat (length (buffer f))) (buffer f)))
  /\ (validHeaderValue contentType && validHeaderValue name = false ->
       fst (route isEmail Download env' req' (snd (route isEmail Create env req db)))
       = mkResponse 500 (Message "Server error")
       /\ fst (route isEmail View env' req' (snd (route isEmail Create env req db)))
          = mkResponse 500 (Message "Server error")).
Proof.
  intros Hf Hn He H201 Hid Hwho -> ->.
  destruct (route_create_201 isEmail env req db H201)
    as (number' & e' & due & Hn' & He' & _ & -> & Hback).
  rewrite Hn in Hn'. injection Hn' as <-. rewrite He in He'. injection He' as <-.
  simpl snd. unfold route, downloadPdf, viewPdf. rewrite Hid, Hback.
  assert (accessDenied (user req') (build env (invoiceData env req) number e due) = false)
    as ->.
  { unfold accessDenied. simpl. unfold set_customerEmail.
    destruct Hwho as [-> | ->]; [reflexivity|].
    rewrite String.eqb_refl. simpl. apply andb_false_r. }
  assert (pdfData (build env (invoiceData env req) number e due) = Some (buffer f)
          /\ pdfMimeType (build env (invoiceData env req) number e due)
             = Some (mimetype f)
          /\ pdfFileName (build env (invoiceData env req) number e due)
             = Some (originalname f)
          /\ invoiceNumber (build env (invoiceData env req) number e due)
             = toUpperCase (trim number)) as (-> & -> & -> & ->).
  { unfold invoiceData. rewrite Hf. simpl. auto. }
  cbv zeta. unfold send. rewrite !orString_cases.
  rewrite (validHeaderValue_quoted "attachment; filename=") by reflexivity.
  rewrite (validHeaderValue_quoted "inline; filename=") by reflexivity.
  split; intros ->; split; reflexivity.
Qed.

End Invariants.

Section Listing.

Variable isEmail : string -> bool.

(** ** Listing and looking up *)

Lemma insertNewestFirst_perm r l : Permutation (insertNewestFirst r l) (r :: l).
Proof.
  induction l as [|x l IH]; simpl; [reflexivity|].
  destruct (createdAt x <=? createdAt r)%Z; [reflexivity|].
  rewrite IH. apply perm_swap.
Qed.

Lemma newestFirst_perm l : Permutation (newestFirst l) l.
Proof.
  induction l as [|x l IH]; simpl; [reflexivity|].
  rewrite insertNewestFirst_perm. now constructor.
Qed.

Lemma insertNewestFirst_sorted r l :
  Sorted notOlder l -> Sorted notOlder (insertNewestFirst r l).
Proof.
  induction l as [|x l IH]; simpl; intros Hs; [repeat constructor|].
  destruct (createdAt x <=? createdAt r)%Z eqn:Hle.
  - constructor; [exact Hs|]. constructor. unfold notOlder. now apply Z.leb_le.
  - apply Z.leb_gt in Hle. inversion Hs as [|? ? Hrest Hhd]; subst.
    constructor; [now apply IH|].
    destruct l as [|y l]; simpl.
    + constructor. unfold notOlder. lia.
    + destruct (createdAt y <=? createdAt r)%Z.
      * constructor. unfold notOlder. lia.
      * constructor. now inversion Hhd.
Qed.

Lemma newestFirst_sorted l : StronglySorted notOlder (newestFirst l).
Proof.
  apply Sorted_StronglySorted.
  - intros a b c. unfold notOlder. lia.
  - induction l as [|x l IH]; simpl; [constructor|].
    now apply insertNewestFirst_sorted.
Qed.

(** X14: the full list of an admin holds every invoice of the table exactly
    once, without its bytes, no invoice coming before one that was created
    later. *)
Theorem listAll_newest_first env req db :
  role (user req) = "admin" ->
  exists rows,
    route isEmail ListAll env req db
    = (mkResponse 200 (WithInvoices (map excludePdfData rows)), db)
    /\ Permutation rows db
    /\ StronglySorted notOlder rows.
Proof.
  intros Hrole. exists (newestFirst db).
  split; [|split; [apply newestFirst_perm | apply newestFirst_sorted]].
  simpl. unfold guarded, requireAdmin. now rewrite Hrole.
Qed.

(** X15: list-by-customer answers, to whoever asks, exactly the invoices
    whose stored email is letter for letter the [email] of the query, each
    once, without its bytes and newest first; without an [email] in the query
    it answers 500. *)
Theorem listByCustomer_exact_email env req db :
  (forall e, query_email req = Some e ->
     exists rows,
       route isEmail ListByCustomer env req db
       = (mkResponse 200 (WithInvoices (map excludePdfData rows)), db)
       /\ Permutation rows (filter (fun r => String.eqb (customerEmail r) e) db)
       /\ StronglySorted notOlder rows
       /\ (forall r, In r rows <-> In r db /\ customerEmail r = e))
  /\ (query_email req = None ->
       route isEmail ListByCustomer env req db
       = (mkResponse 500 (Message "Server error"), db)).
Proof.
  split.
  - intros e He. exists (findAll_customerEmail e db).
    simpl. unfold listByCustomer. rewrite He.
    split; [reflexivity|]. unfold findAll_customerEmail.
    split; [apply newestFirst_perm|]. split; [apply newestFirst_sorted|].
    intros r. split.
    + intros Hr. apply (Permutation_in _ (newestFirst_perm _)) in Hr.
      apply filter_In in Hr. destruct Hr as [Hin Heq]. now apply String.eqb_eq in Heq.
    + intros [Hin Heq].
      apply (Permutation_in _ (Permutation_sym (newestFirst_perm _))).
      apply filter_In. split; [exact Hin | now apply String.eqb_eq].
  - intros Hnone. simpl. unfold listByCustomer. now rewrite Hnone.
Qed.

(** X16: the two searches do not normalise what they are asked: in any
    table the router can reach, a search by a number that is not in the
    normal form of the setter answers 404, and a list-by-customer for an
    email that is not in normal form answers the empty list. *)
Theorem unnormalised_queries_find_nothing env req db :
  reachable isEmail db ->
  (set_invoiceNumber (params_invoiceNumber req) <> params_invoiceNumber req ->
     route isEmail Search env req db = (mkResponse 404 (Message "Invoice not found"), db))
  /\ (forall e, query_email req = Some e -> set_customerEmail e <> e ->
       route isEmail ListByCustomer env req db = (mkResponse 200 (WithInvoices []), db)).
Proof.
  intros Hreach. pose proof (reachable_normalized Hreach) as Hnorm.
  split.
  - intros Hq. simpl. unfold searchByNumber.
    replace (findOne_invoiceNumber (params_invoiceNumber req) db) with (@None Invoice);
      [reflexivity|].
    symmetry. apply find_none_inv. intros x Hx. apply String.eqb_neq. intros Heq.
    destruct (proj1 (Forall_forall _ db) Hnorm x Hx) as [Hn _].
    apply Hq. now rewrite <- Heq.
  - intros e He Hq. simpl. unfold listByCustomer, findAll_customerEmail. rewrite He.
    rewrite filter_none; [reflexivity|].
    intros x Hx. apply String.eqb_neq. intros Heq.
    destruct (proj1 (Forall_forall _ db) Hnorm x Hx) as (_ & Hn & _).
    apply Hq. now rewrite <- Heq.
Qed.

Lemma find_by_unique_key (f : Invoice -> string) (l : list Invoice) (r : Invoice) :
  NoDup (map f l) -> In r l -> find (fun x => String.eqb (f x) (f r)) l = Some r.
Proof.
  induction l as [|a l IH]; simpl; intros Hnd Hin; [destruct Hin|].
  inversion Hnd as [|? ? Hnotin Hrest]; subst.
  destruct Hin as [->|Hin]; [now rewrite String.eqb_refl|].
  destruct (String.eqb (f a) (f r)) eqn:Heq; [|now apply IH].
  exfalso. apply String.eqb_eq in Heq. apply Hnotin. rewrite Heq. now apply in_map.
Qed.

(** X17: in any table the router can reach, every stored invoice is the one
    found under its id and the one found under its number: an admin's
    detail-fetch of its id and anybody's search for its number both return
    it, without the bytes. *)
Theorem stored_invoice_is_found env req db r :
  reachable isEmail db -> In r db ->
  (params_id req = id r -> role (user req) = "admin" ->
     route isEmail Detail env req db
     = (mkResponse 200 (WithInvoice None (excludePdfData r)), db))
  /\ (params_invoiceNumber req = invoiceNumber r ->
       route isEmail Search env req db
       = (mkResponse 200 (WithInvoice None (excludePdfData r)), db)).
Proof.
  intros Hreach Hin. destruct (reachable_unique Hreach) as [Hid Hnum].
  split.
  - intros Hreq Hrole.
    assert (findByPk (id r) db = Some r) as Hf
        by exact (find_by_unique_key (fun x : Invoice => id x) db r Hid Hin).
    simpl. unfold getInvoiceDetail. rewrite Hreq, Hf.
    unfold accessDenied. now rewrite Hrole.
  - intros Hreq.
    assert (findOne_invoiceNumber (invoiceNumber r) db = Some r) as Hf
        by exact (find_by_unique_key (fun x : Invoice => invoiceNumber x) db r Hnum Hin).
    simpl. unfold searchByNumber. now rewrite Hreq, Hf.
Qed.

End Listing.

(** ** Updating, then reading *)

Section UpdateThenRead.

Variable isEmail : string -> bool.

(** X18: the invoice in the answer of an update answered 200 is the one an
    admin's detail-fetch of the same id returns right after. *)
Theorem update_answer_is_detail env req db env' req' :
  status (fst (route isEmail Update env req db)) = 200 ->
  params_id req' = params_id req ->
  role (user req') = "admin" ->
  exists j,
    fst (route isEmail Update env req db)
    = mkResponse 200 (WithInvoice (Some "Invoice updated") j)
    /\ fst (route isEmail Detail env' req' (snd (route isEmail Update env req db)))
       = mkResponse 200 (WithInvoice None j).
Proof.
  intros H200 Hid Hrole.
  destruct (route_update_200 isEmail env req db H200) as (r & _ & Hback & Hres).
  eexists. split; [exact Hres|].
  simpl. simpl in Hback. unfold getInvoiceDetail. rewrite Hid, Hback.
  unfold accessDenied. now rewrite Hrole.
Qed.

(** X19: access follows the stored email: after an update answered 200
    that names a customer email, a principal that is not an admin passes the
    access test of detail, download and view of that id exactly when its
    email is the trimmed, lower-cased form of the new one. *)
Theorem access_follows_email env req db e op env' req' :
  status (fst (route isEmail Update env req db)) = 200 ->
  v_customerEmail (body req) = Some e ->
  singleRead op = true ->
  params_id req' = params_id req ->
  role (user req') <> "admin" ->
  (status (fst (route isEmail op env' req' (snd (route isEmail Update env req db)))) <> 403
   <-> email (user req') = trim (toLowerCase e)).
Proof.
  intros H200 He Hop Hid Hrole.
  destruct (route_update_200 isEmail env req db H200) as (r & _ & Hback & _).
  rewrite <- Hid in Hback.
  destruct (singleRead_found isEmail op env' req' _ Hop Hback) as [Hdeny Hpass].
  assert (customerEmail (applyValues env (updates req) r) = trim (toLowerCase e)) as Hmail.
  { simpl. unfold updates. destruct (file req); simpl; now rewrite He. }
  destruct (accessDenied (user req') (applyValues env (updates req) r)) eqn:Hd.
  - rewrite (Hdeny eq_refl). simpl. apply accessDenied_spec in Hd.
    rewrite Hmail in Hd. split; [congruence | intros Heq; now destruct Hd].
  - split; [|intros _; now apply Hpass].
    intros _. rewrite <- Hmail.
    destruct (String.eqb (email (user req')) (customerEmail (applyValues env (updates req) r)))
      eqn:Heq; [now apply String.eqb_eq|].
    exfalso. apply String.eqb_neq in Heq.
    assert (accessDenied (user req') (applyValues env (updates req) r) = true)
      by now apply accessDenied_spec.
    congruence.
Qed.

End UpdateThenRead.

(** ** The further properties at work on sample requests *)

Lemma reachable_storeTwo : reachable sampleIsEmail storeTwo.
Proof.
  unfold storeTwo. apply reachable_step.
  unfold storeWithPdf. apply reachable_step. apply reachable_empty.
Defined.

Lemma keys_stay_unique_witness :
  reachable sampleIsEmail storeTwo
  /\ NoDup (map (fun r : Invoice => id r) storeTwo)
  /\ NoDup (map (fun r : Invoice => invoiceNumber r) storeTwo).
Proof.
  split; [exact reachable_storeTwo|].
  exact (keys_stay_unique reachable_storeTwo).
Defined.

Lemma stored_values_normalized_witness :
  reachable sampleIsEmail storeTwo
  /\ Forall (fun r : Invoice =>
               set_invoiceNumber (invoiceNumber r) = invoiceNumber r
               /\ set_customerEmail (customerEmail r) = customerEmail r
               /\ sampleIsEmail (customerEmail r) = true) storeTwo.
Proof.
  split; [exact reachable_storeTwo|].
  exact (stored_values_normalized reachable_storeTwo).
Defined.

Lemma delete_removes_invoice_witness :
  role admin = "admin"
  /\ findByPk "uuid-1" storeTwo = Some invoiceWithPdf
  /\ fst (route sampleIsEmail Delete env3 (request admin "uuid-1" noValues None) storeTwo)
     = mkResponse 200 (Message "Invoice deleted successfully")
  /\ findByPk "uuid-1"
       (snd (route sampleIsEmail Delete env3 (request admin "uuid-1" noValues None) storeTwo))
     = None
  /\ findByPk "uuid-2"
       (snd (route sampleIsEmail Delete env3 (request admin "uuid-1" noValues None) storeTwo))
     = Some invoiceSecond.
Proof.
  split; [reflexivity|]. split; [reflexivity|].
  destruct (proj2 (delete_removes_invoice sampleIsEmail env3
                     (request admin "uuid-1" noValues None) storeTwo eq_refl)
              invoiceWithPdf eq_refl) as (H200 & _ & Hgone & _ & Hkept).
  split; [exact H200|]. split; [exact Hgone|].
  rewrite (Hkept "uuid-2"); [reflexivity | discriminate].
Defined.

Lemma failures_leave_table_witness :
  v_id (body (request customerA "uuid-1" paidBody None)) = None
  /\ status (fst (route sampleIsEmail Update env2
                    (request customerA "uuid-1" paidBody None) storeWithPdf)) = 403
  /\ snd (route sampleIsEmail Update env2
            (request customerA "uuid-1" paidBody None) storeWithPdf) = storeWithPdf.
Proof.
  split; [reflexivity|]. split; [reflexivity|].
  apply (@failures_leave_table sampleIsEmail Update env2
           (request customerA "uuid-1" paidBody None) storeWithPdf).
  - intros _. reflexivity.
  - simpl. discriminate.
  - simpl. discriminate.
Defined.

Lemma update_refusals_in_order_witness :
  role (user (request admin "uuid-9" paidBody None)) = "admin"
  /\ findByPk "uuid-9" storeTwo = None
  /\ route sampleIsEmail Update env3 (request admin "uuid-9" paidBody None) storeTwo
     = (mkResponse 404 (Message "Invoice not found"), storeTwo).
Proof.
  split; [reflexivity|]. split; [reflexivity|].
  apply (proj2 (proj2 (proj2 (update_refusals_in_order sampleIsEmail env3
                                (request admin "uuid-9" paidBody None) storeTwo))));
    try reflexivity.
  intros e [= <-]. reflexivity.
Defined.

Lemma update_number_collision_witness :
  findByPk "uuid-1" storeTwo = Some invoiceWithPdf
  /\ In invoiceSecond storeTwo
  /\ invoiceNumber invoiceSecond = toUpperCase (trim " inv-002")
  /\ route sampleIsEmail Update env3 (request admin "uuid-1" renumberBody None) storeTwo
     = (mkResponse 500 (Message "Server error"), storeTwo).
Proof.
  split; [reflexivity|]. split; [right; left; reflexivity|]. split; [reflexivity|].
  apply (@update_number_collision sampleIsEmail env3
           (request admin "uuid-1" renumberBody None) storeTwo
           invoiceWithPdf invoiceSecond " inv-002");
    try reflexivity.
  - right. left. reflexivity.
  - discriminate.
Defined.

Lemma created_invoice_fields_witness :
  status (fst (route sampleIsEmail Create env1
                 (request admin EmptyString (newInvoiceBody "A-1" "c@d.com") None) [])) = 201
  /\ exists r,
       findByPk "uuid-1"
         (snd (route sampleIsEmail Create env1
                 (request admin EmptyString (newInvoiceBody "A-1" "c@d.com") None) []))
       = Some r
       /\ paymentStatus r = Unpaid
       /\ invoiceDate r = env_newDate env1
       /\ attachmentOf r = (None, None, Some "application/pdf", None).
Proof.
  split; [reflexivity|].
  destruct (created_invoice_fields sampleIsEmail env1
              (request admin EmptyString (newInvoiceBody "A-1" "c@d.com") None) [] eq_refl)
    as (r & number & e & due & _ & _ & _ & _ & Hfound & _ & _ & _ & Hdate & _ & Hstatus
        & _ & _ & _ & _ & Hatt).
  exists r. auto.
Defined.

Lemma create_reads_six_fields_witness :
  v_id crowdedBody = Some "chosen-id"
  /\ v_pdfFileName crowdedBody = Some "other.pdf"
  /\ route sampleIsEmail Create env1
       (withBody (request admin EmptyString (newInvoiceBody "inv-001" "a@x.com") None)
          crowdedBody) []
     = route sampleIsEmail Create env1
         (request admin EmptyString (newInvoiceBody "inv-001" "a@x.com") None) [].
Proof.
  split; [reflexivity|]. split; [reflexivity|].
  apply (create_reads_six_fields sampleIsEmail env1
           (request admin EmptyString (newInvoiceBody "inv-001" "a@x.com") None) []
           crowdedBody); reflexivity.
Defined.

Lemma upload_comes_back_witness :
  status (fst (route sampleIsEmail Create env1
                 (request admin EmptyString (newInvoiceBody "inv-001" " A@X.com ")
                    (Some samplePdf)) [])) = 201
  /\ email customerA = trim (toLowerCase " A@X.com ")
  /\ validHeaderValue "application/pdf" && validHeaderValue "march.pdf" = true
  /\ fst (route sampleIsEmail Download env2 (request customerA "uuid-1" noValues None)
            (snd (route sampleIsEmail Create env1
                    (request admin EmptyString (newInvoiceBody "inv-001" " A@X.com ")
                       (Some samplePdf)) [])))
     = mkResponse 200
         (Pdf "application/pdf" ("attachment; filename=" ++ dquote ++ "march.pdf" ++ dquote)%string
              4%Z (buffer samplePdf)).
Proof.
  split; [reflexivity|]. split; [reflexivity|]. split; [reflexivity|].
  exact (proj1 (proj1 (@upload_comes_back sampleIsEmail env1
                         (request admin EmptyString (newInvoiceBody "inv-001" " A@X.com ")
                            (Some samplePdf)) [] samplePdf "inv-001" " A@X.com " env2
                         (request customerA "uuid-1" noValues None)
                         "application/pdf" "march.pdf"
                         eq_refl eq_refl eq_refl eq_refl eq_refl (or_intror eq_refl)
                         eq_refl eq_refl) eq_refl)).
Defined.

Lemma listAll_newest_first_witness :
  role (user (request admin EmptyString noValues None)) = "admin"
  /\ exists rows,
       route sampleIsEmail ListAll env3 (request admin EmptyString noValues None) storeTwo
       = (mkResponse 200 (WithInvoices (map excludePdfData rows)), storeTwo)
       /\ Permutation rows storeTwo
       /\ StronglySorted notOlder rows.
Proof.
  split; [reflexivity|].
  exact (listAll_newest_first sampleIsEmail env3
           (request admin EmptyString noValues None) storeTwo eq_refl).
Defined.

Lemma listByCustomer_exact_email_witness :
  query_email (customerQuery customerA "b@x.com") = Some "b@x.com"
  /\ exists rows,
       route sampleIsEmail ListByCustomer env3 (customerQuery customerA "b@x.com") storeTwo
       = (mkResponse 200 (WithInvoices (map excludePdfData rows)), storeTwo)
       /\ Permutation rows
            (filter (fun r : Invoice => String.eqb (customerEmail r) "b@x.com") storeTwo)
       /\ StronglySorted notOlder rows
       /\ (forall r, In r rows <-> In r storeTwo /\ customerEmail r = "b@x.com").
Proof.
  split; [reflexivity|].
  exact (proj1 (listByCustomer_exact_email sampleIsEmail env3
                  (customerQuery customerA "b@x.com") storeTwo) "b@x.com" eq_refl).
Defined.

Lemma unnormalised_queries_find_nothing_witness :
  reachable sampleIsEmail storeTwo
  /\ set_invoiceNumber "inv-001" <> "inv-001"
  /\ route sampleIsEmail Search env3 (request customerA "inv-001" noValues None) storeTwo
     = (mkResponse 404 (Message "Invoice not found"), storeTwo)
  /\ set_customerEmail "B@x.com" <> "B@x.com"
  /\ route sampleIsEmail ListByCustomer env3 (customerQuery customerA "B@x.com") storeTwo
     = (mkResponse 200 (WithInvoices []), storeTwo).
Proof.
  split; [exact reachable_storeTwo|]. split; [discriminate|].
  split; [|split; [discriminate|]].
  - apply (proj1 (@unnormalised_queries_find_nothing sampleIsEmail env3
                    (request customerA "inv-001" noValues None) storeTwo
                    reachable_storeTwo)).
    discriminate.
  - apply (proj2 (@unnormalised_queries_find_nothing sampleIsEmail env3
                    (customerQuery customerA "B@x.com") storeTwo
                    reachable_storeTwo) "B@x.com");
      [reflexivity | discriminate].
Defined.

Lemma stored_invoice_is_found_witness :
  reachable sampleIsEmail storeTwo
  /\ In invoiceSecond storeTwo
  /\ route sampleIsEmail Search env3 (request customerA "INV-002" noValues None) storeTwo
     = (mkResponse 200 (WithInvoice None (excludePdfData invoiceSecond)), storeTwo).
Proof.
  split; [exact reachable_storeTwo|]. split; [right; left; reflexivity|].
  apply (proj2 (@stored_invoice_is_found sampleIsEmail env3
                  (request customerA "INV-002" noValues None) storeTwo invoiceSecond
                  reachable_storeTwo (or_intror (or_introl eq_refl)))).
  reflexivity.
Defined.

Lemma update_answer_is_detail_witness :
  status (fst (route sampleIsEmail Update env2
                 (request admin "uuid-1" paidBody None) storeWithPdf)) = 200
  /\ exists j,
       fst (route sampleIsEmail Update env2 (request admin "uuid-1" paidBody None) storeWithPdf)
       = mkResponse 200 (WithInvoice (Some "Invoice updated") j)
       /\ fst (route sampleIsEmail Detail env3 (request admin "uuid-1" noValues None)
                (snd (route sampleIsEmail Update env2
                        (request admin "uuid-1" paidBody None) storeWithPdf)))
          = mkResponse 200 (WithInvoice None j).
Proof.
  split; [reflexivity|].
  exact (@update_answer_is_detail sampleIsEmail env2
           (request admin "uuid-1" paidBody None) storeWithPdf env3
           (request admin "uuid-1" noValues None) eq_refl eq_refl eq_refl).
Defined.

Lemma access_follows_email_witness :
  status (fst (route sampleIsEmail Update env2
                 (request admin "uuid-1" paidBody None) storeWithPdf)) = 200
  /\ v_customerEmail paidBody = Some " User@Example.COM "
  /\ role customerUser <> "admin"
  /\ email customerUser = trim (toLowerCase " User@Example.COM ")
  /\ status (fst (route sampleIsEmail Download env3
                    (request customerUser "uuid-1" noValues None)
                    (snd (route sampleIsEmail Update env2
                            (request admin "uuid-1" paidBody None) storeWithPdf)))) <> 403.
Proof.
  split; [reflexivity|]. split; [reflexivity|]. split; [discriminate|].
  split; [reflexivity|].
  refine (proj2 (@access_follows_email sampleIsEmail env2
                   (request admin "uuid-1" paidBody None) storeWithPdf
                   " User@Example.COM " Download env3
                   (request customerUser "uuid-1" noValues None)
                   eq_refl eq_refl eq_refl eq_refl _) _);
    [discriminate | reflexivity].
Defined.
